(** * Bank Buddy: the transaction flow of the banking front-end

    A shallow embedding of the deposit / withdrawal handlers
    ([BankingOperations.handleTransaction] with its two submit wrappers, and
    the Dashboard page's own [handleDeposit] / [handleWithdraw]), of the
    Profile page's [handleSaveProfile], of the Transactions page's summary
    counters and of the two tables of the SQL migration they talk to.

    Money is counted in paise (hundredths of a rupee), the unit of the
    [DECIMAL(12,2)] columns and of the [step="0.01"] inputs, so an amount
    is an integer of [Z].  The store is the pair of tables; a row's [id],
    [created_at] and [updated_at] are generated by the database and read by
    no handler: the position of a row in the [transactions] list is its
    creation order. *)

From Stdlib Require Import ZArith Lia.
From stdpp Require Import base option list strings gmap fin_maps.

Open Scope string_scope.
Open Scope list_scope.
Open Scope Z_scope.

(** ** The two tables *)

Definition UserId := string.

(** A row of [public.profiles], keyed by its [user_id] (declared UNIQUE). *)
Record Profile := {
  name : string;
  phone : string;
  account_type : string;
  balance : Z
}.

(** A row of [public.transactions]. *)
Record Transaction := {
  user_id : UserId;
  amount : Z;
  transaction_type : string;
  description : string;
  balance_after : Z
}.

Record Store := {
  profiles : gmap string Profile;
  transactions : list Transaction
}.

(** [CHECK (account_type IN ('savings', 'current'))] *)
Definition account_type_check (t : string) : bool :=
  bool_decide (t = "savings") || bool_decide (t = "current").

(** [CHECK (transaction_type IN ('deposit', 'withdraw'))] *)
Definition transaction_type_check (t : string) : bool :=
  bool_decide (t = "deposit") || bool_decide (t = "withdraw").

(** ** The store client

    Every call to the store answers [{ data, error }].  A call can fail for
    reasons outside the program (network, session, row policies) and for a
    value the [DECIMAL(12,2)] columns cannot hold ('numeric field
    overflow'): such a failure is an input of the model, the [option Err]
    each call takes, carrying the [error.message]; a call that fails writes
    nothing.  The other failures are the ones the model decides from the
    tables: no row for [.single()], a violated CHECK.  A statement that a
    call goes through says so as a premise on that input, and names the
    range of the columns ([fits_decimal_12_2]) where it concludes a
    success. *)

Definition Err := string.

Inductive Response (A : Type) :=
| Data (data : A)
| Error (message : Err).
Arguments Data {A} data.
Arguments Error {A} message.

Definition no_rows : Err := "JSON object requested, multiple (or no) rows returned".
Definition check_violation : Err := "new row violates check constraint".

Definition set_balance (b : Z) (p : Profile) : Profile :=
  {| name := name p; phone := phone p; account_type := account_type p; balance := b |}.

Definition set_details (n ph t : string) (p : Profile) : Profile :=
  {| name := n; phone := ph; account_type := t; balance := balance p |}.

(** [from('profiles').select('balance').eq('user_id', uid).single()] *)
Definition select_balance (uid : UserId) (fault : option Err) (db : Store)
  : Response Z :=
  match fault with
  | Some e => Error e
  | None =>
      match profiles db !! uid with
      | Some p => Data (balance p)
      | None => Error no_rows
      end
  end.

(** [from('profiles').select('*').eq('user_id', uid).single()] *)
Definition select_profile (uid : UserId) (fault : option Err) (db : Store)
  : Response Profile :=
  match fault with
  | Some e => Error e
  | None =>
      match profiles db !! uid with
      | Some p => Data p
      | None => Error no_rows
      end
  end.

(** [from('profiles').update({ balance }).eq('user_id', uid)]: an update that
    matches no row is not an error. *)
Definition update_balance (uid : UserId) (b : Z) (fault : option Err) (db : Store)
  : Response Store :=
  match fault with
  | Some e => Error e
  | None =>
      Data {| profiles := alter (set_balance b) uid (profiles db);
              transactions := transactions db |}
  end.

(** [from('profiles').update({ name, phone, account_type }).eq('user_id', uid)]:
    the new row, when there is one, has to pass the CHECK of [account_type]. *)
Definition update_details (uid : UserId) (n ph t : string) (fault : option Err)
  (db : Store) : Response Store :=
  match fault with
  | Some e => Error e
  | None =>
      match profiles db !! uid with
      | Some p =>
          if account_type_check t
          then Data {| profiles := <[uid := set_details n ph t p]> (profiles db);
                       transactions := transactions db |}
          else Error check_violation
      | None => Data db
      end
  end.

(** [from('transactions').insert(row)] *)
Definition insert_transaction (row : Transaction) (fault : option Err) (db : Store)
  : Response Store :=
  match fault with
  | Some e => Error e
  | None =>
      if transaction_type_check (transaction_type row)
      then Data {| profiles := profiles db;
                   transactions := transactions db ++ [row] |}
      else Error check_violation
  end.

(** ** Handlers as store actions

    A handler body runs against the store and either finishes with a value
    or throws the error of a failed call ([if (error) throw error]); what
    was written before the throw stays written. *)

Definition Action (A : Type) : Type := Store -> Store * Response A.

Definition ret {A} (a : A) : Action A := fun db => (db, Data a).

Definition bind {A B} (m : Action A) (k : A -> Action B) : Action B :=
  fun db =>
    match m db with
    | (db', Data a) => k a db'
    | (db', Error e) => (db', Error e)
    end.

(** An awaited read: [const { data, error } = await ...; if (error) throw error]. *)
Definition await_read {A} (q : Store -> Response A) : Action A :=
  fun db => (db, q db).

(** An awaited write: the store becomes the answered one, or the error is
    thrown and the store is as before the call. *)
Definition await_write (q : Store -> Response Store) : Action unit :=
  fun db =>
    match q db with
    | Data db' => (db', Data tt)
    | Error e => (db, Error e)
    end.

(** [try { body } catch (error) { handler }] *)
Definition try_catch {A} (body : Action A) (handler : Err -> A) : Store -> Store * A :=
  fun db =>
    match body db with
    | (db', Data a) => (db', a)
    | (db', Error e) => (db', handler e)
    end.

Declare Scope action_scope.
Delimit Scope action_scope with action.
Notation "'let*' x ':=' m 'in' k" := (bind m (fun x => k))
  (at level 10, x name, m at level 100, k at level 200) : action_scope.
Notation "m ';;' k" := (bind m (fun _ => k))
  (at level 100, k at level 200, right associativity) : action_scope.

(** ** What a handler tells the user

    Each handler ends by showing at most one toast; the outcome is that
    toast.  [Failed] carries the description shown, taken from the error. *)

Inductive Outcome :=
| Silent              (* returned without a toast *)
| InvalidAmount       (* 'Invalid Amount' *)
| InsufficientFunds   (* 'Insufficient Funds' *)
| Success             (* 'Success', 'Deposit Successful', 'Withdrawal Successful' *)
| Failed (description : string).  (* 'Error', 'Deposit Failed', 'Withdrawal Failed' *)

(** The failures the environment injects into the calls of one handler run. *)
Record Faults := {
  fetch_fault : option Err;
  update_fault : option Err;
  insert_fault : option Err
}.

Definition no_faults : Faults :=
  {| fetch_fault := None; update_fault := None; insert_fault := None |}.

(** ** BankingOperations *)

Inductive TransactionType := deposit | withdraw.

(** The string literal of the union type ['deposit' | 'withdraw']. *)
Definition literal (type : TransactionType) : string :=
  match type with
  | deposit => "deposit"
  | withdraw => "withdraw"
  end.

Definition is_withdraw (type : TransactionType) : bool :=
  match type with
  | deposit => false
  | withdraw => true
  end.

(** JavaScript's [a || b] on strings: the empty string is falsy. *)
Definition or_else (a b : string) : string :=
  if bool_decide (a = "") then b else a.

Module BankingOperations.

(** The [catch] of [handleTransaction]: the toast shows
    [error.message || 'Transaction failed. Please try again.']. *)
Definition caught (message : Err) : Outcome :=
  Failed (or_else message "Transaction failed. Please try again.").

(** The component's props and the session it reads: [currentBalance] is the
    balance the parent page last fetched. *)
Record Props := {
  user : option UserId;
  currentBalance : Z
}.

Definition handleTransaction (props : Props) (type : TransactionType)
  (amount : Z) (description : string) (env : Faults) (db : Store)
  : Store * Outcome :=
  match user props with
  | None => (db, Silent)
  | Some uid =>
      try_catch
        (let newBalance :=
           match type with
           | deposit => currentBalance props + amount
           | withdraw => currentBalance props - amount
           end in
         if is_withdraw type && (newBalance <? 0) then ret InsufficientFunds
         else
           let* current_balance := await_read (select_balance uid (fetch_fault env)) in
           let updatedBalance :=
             match type with
             | deposit => current_balance + amount
             | withdraw => current_balance - amount
             end in
           if is_withdraw type && (updatedBalance <? 0) then ret InsufficientFunds
           else
             await_write (update_balance uid updatedBalance (update_fault env));;
             await_write
               (insert_transaction
                  {| user_id := uid;
                     amount := amount;
                     transaction_type := literal type;
                     description :=
                       or_else description
                         (String.append
                            (match type with
                             | deposit => "Deposit"
                             | withdraw => "Withdrawal"
                             end)
                            " transaction");
                     balance_after := updatedBalance |}
                  (insert_fault env));;
             ret Success)%action
        caught
        db
  end.

(** [amount] is the parsed value of the form's amount field. *)
Definition handleDepositSubmit (props : Props) (amount : Z) (description : string)
  (env : Faults) (db : Store) : Store * Outcome :=
  if amount <=? 0 then (db, InvalidAmount)
  else handleTransaction props deposit amount description env db.

Definition handleWithdrawSubmit (props : Props) (amount : Z) (description : string)
  (env : Faults) (db : Store) : Store * Outcome :=
  if amount <=? 0 then (db, InvalidAmount)
  else if amount >? currentBalance props then (db, InsufficientFunds)
  else handleTransaction props withdraw amount description env db.

End BankingOperations.

(** ** The Dashboard page with its own forms

    The page keeps the profile it fetched and the text of its two amount
    fields.  A field is [None] when empty (the only text [!depositAmount]
    rejects) and [Some a] when it holds the decimal [a].  The forms are
    rendered behind the [!user] redirect, so [user?.id] is the id of the
    signed-in user.  The page's list of recent transactions and its
    [isProcessing] flag only feed the display.

    After a success the page keeps the sum it computed, which in the
    browser is the floating-point sum and can differ in its last bit from
    the decimal the store rounds it to; it is kept here as the decimal, so
    what is stated of this page's forms is stated of the store, of the
    guards and of the page as it was fetched, not of the balance kept
    after a success. *)

Module Dashboard.

Record State := {
  profile : option Profile;
  depositAmount : option Z;
  withdrawAmount : option Z
}.

(** [fetchProfile]: the answer replaces the kept profile; an error is only
    logged. *)
Definition fetchProfile (uid : UserId) (fault : option Err) (st : State)
  (db : Store) : State :=
  match select_profile uid fault db with
  | Data data =>
      {| profile := Some data;
         depositAmount := depositAmount st;
         withdrawAmount := withdrawAmount st |}
  | Error _ => st
  end.

Definition handleDeposit (uid : UserId) (st : State) (env : Faults) (db : Store)
  : Store * (State * Outcome) :=
  match profile st, depositAmount st with
  | Some kept, Some amount =>
      let newBalance := balance kept + amount in
      try_catch
        (await_write (update_balance uid newBalance (update_fault env));;
         await_write
           (insert_transaction
              {| user_id := uid;
                 amount := amount;
                 transaction_type := "deposit";
                 description := "Account Deposit";
                 balance_after := newBalance |}
              (insert_fault env));;
         ret ({| profile := Some (set_balance newBalance kept);
                 depositAmount := None;
                 withdrawAmount := withdrawAmount st |}, Success))%action
        (fun message => (st, Failed message))
        db
  | _, _ => (db, (st, Silent))
  end.

Definition handleWithdraw (uid : UserId) (st : State) (env : Faults) (db : Store)
  : Store * (State * Outcome) :=
  match profile st, withdrawAmount st with
  | Some kept, Some amount =>
      if amount >? balance kept then (db, (st, InsufficientFunds))
      else
        let newBalance := balance kept - amount in
        try_catch
          (await_write (update_balance uid newBalance (update_fault env));;
           await_write
             (insert_transaction
                {| user_id := uid;
                   amount := amount;
                   transaction_type := "withdraw";
                   description := "Account Withdrawal";
                   balance_after := newBalance |}
                (insert_fault env));;
           ret ({| profile := Some (set_balance newBalance kept);
                   depositAmount := depositAmount st;
                   withdrawAmount := None |}, Success))%action
          (fun message => (st, Failed message))
          db
  | _, _ => (db, (st, Silent))
  end.

End Dashboard.

(** ** The Profile settings page *)

Module ProfilePage.

Record EditForm := {
  form_name : string;
  form_phone : string;
  form_account_type : string
}.

Record State := {
  profile : option Profile;
  editForm : EditForm;
  isEditing : bool
}.

(** The values of the account type [Select] of the edit form. *)
Definition account_type_options : list string := ["savings"; "current"; "fixed"].

(** [onValueChange]: the chosen option becomes the form's account type. *)
Definition choose_account_type (value : string) (st : State) : State :=
  {| profile := profile st;
     editForm := {| form_name := form_name (editForm st);
                    form_phone := form_phone (editForm st);
                    form_account_type := value |};
     isEditing := isEditing st |}.

(** A thrown error and an answered error end in the same toast. *)
Definition handleSaveProfile (uid : UserId) (st : State) (fault : option Err)
  (db : Store) : Store * (State * Outcome) :=
  match profile st with
  | None => (db, (st, Silent))
  | Some kept =>
      match update_details uid (form_name (editForm st)) (form_phone (editForm st))
              (form_account_type (editForm st)) fault db with
      | Error _ => (db, (st, Failed "Failed to update profile"))
      | Data db' =>
          (db', ({| profile :=
                      Some (set_details (form_name (editForm st))
                              (form_phone (editForm st))
                              (form_account_type (editForm st)) kept);
                    editForm := editForm st;
                    isEditing := false |}, Success))
      end
  end.

End ProfilePage.

(** ** The Transactions page *)

Module TransactionsPage.

(** [select('*').eq('user_id', uid).order('created_at', { ascending: false })] *)
Definition fetchTransactions (uid : UserId) (fault : option Err) (db : Store)
  : Response (list Transaction) :=
  match fault with
  | Some e => Error e
  | None => Data (reverse (filter (fun t => user_id t = uid) (transactions db)))
  end.

(** The three summary cards. *)
Definition totalTransactions (shown : list Transaction) : nat := length shown.

Definition totalDeposits (shown : list Transaction) : nat :=
  length (filter (fun t => transaction_type t = "deposit") shown).

Definition totalWithdrawals (shown : list Transaction) : nat :=
  length (filter (fun t => transaction_type t = "withdrawal") shown).

End TransactionsPage.

(** ** Reading the store back *)

Definition stored_balance (uid : UserId) (db : Store) : option Z :=
  balance <$> profiles db !! uid.

(** The rows written since [db]: the table only grows at its end. *)
Definition appended (db db' : Store) : list Transaction :=
  drop (length (transactions db)) (transactions db').

(** The sign every history view gives a row:
    [transaction_type === 'deposit' ? '+' : '-']. *)
Definition signed_amount (t : Transaction) : Z :=
  if bool_decide (transaction_type t = "deposit") then amount t else - amount t.

(** Replaying rows in creation order over a starting balance. *)
Definition replay (start : Z) (rows : list Transaction) : Z :=
  foldl (fun b t => b + signed_amount t) start rows.

(** ** Calls made one after the other *)

Module Sequential.
Import BankingOperations.

(** One submitted transaction of the owner: what the form passes to
    [handleTransaction], the balance the parent page held at that time and
    the failures the environment injects into the call. *)
Record Call := {
  held : Z;
  type : TransactionType;
  value : Z;
  memo : string;
  env : Faults
}.

Definition signed (c : Call) : Z :=
  match type c with
  | deposit => value c
  | withdraw => - value c
  end.

Definition perform (uid : UserId) (c : Call) (db : Store) : Store * Outcome :=
  handleTransaction {| user := Some uid; currentBalance := held c |}
    (type c) (value c) (memo c) (env c) db.

(** Each call starts when the one before it has finished. *)
Fixpoint run (uid : UserId) (calls : list Call) (db : Store)
  : Store * list Outcome :=
  match calls with
  | [] => (db, [])
  | c :: rest =>
      let '(db1, o) := perform uid c db in
      let '(db2, os) := run uid rest db1 in
      (db2, o :: os)
  end.

(** The signed amounts of the calls that ended in [Success]. *)
Fixpoint succeeded_sum (calls : list Call) (outcomes : list Outcome) : Z :=
  match calls, outcomes with
  | c :: calls', Success :: outcomes' => signed c + succeeded_sum calls' outcomes'
  | _ :: calls', _ :: outcomes' => succeeded_sum calls' outcomes'
  | _, _ => 0
  end.

(** Conservation, for one run: the balance moved by the succeeded calls and
    by nothing else, and the rows written replay to it. *)
Definition conservation (uid : UserId) (db : Store) (calls : list Call) : Prop :=
  forall B0, stored_balance uid db = Some B0 ->
    stored_balance uid (run uid calls db).1
      = Some (B0 + succeeded_sum calls (run uid calls db).2)
    /\ stored_balance uid (run uid calls db).1
      = Some (replay B0 (appended db (run uid calls db).1)).

End Sequential.

(** ** Calls in flight together

    [handleTransaction] is an async function: it gives way at each [await],
    and the store serves one request at a time.  A call in flight is the
    rest of the function body at its next request; [step] runs it up to the
    request after that. *)

Module Concurrent.
Import BankingOperations.

Inductive Task :=
| Called (props : Props) (type : TransactionType) (amount : Z)
    (description : string) (env : Faults)
| Updating (uid : UserId) (updatedBalance : Z) (row : Transaction) (env : Faults)
| Inserting (row : Transaction) (env : Faults)
| Returned (o : Outcome).

Definition step (t : Task) (db : Store) : Store * Task :=
  match t with
  | Called props type amount description env =>
      match user props with
      | None => (db, Returned Silent)
      | Some uid =>
          let newBalance :=
            match type with
            | deposit => currentBalance props + amount
            | withdraw => currentBalance props - amount
            end in
          if is_withdraw type && (newBalance <? 0)
          then (db, Returned InsufficientFunds)
          else
            match select_balance uid (fetch_fault env) db with
            | Error e => (db, Returned (caught e))
            | Data current_balance =>
                let updatedBalance :=
                  match type with
                  | deposit => current_balance + amount
                  | withdraw => current_balance - amount
                  end in
                if is_withdraw type && (updatedBalance <? 0)
                then (db, Returned InsufficientFunds)
                else
                  (db, Updating uid updatedBalance
                         {| user_id := uid;
                            amount := amount;
                            transaction_type := literal type;
                            description :=
                              or_else description
                                (String.append
                                   (match type with
                                    | deposit => "Deposit"
                                    | withdraw => "Withdrawal"
                                    end)
                                   " transaction");
                            balance_after := updatedBalance |}
                         env)
            end
      end
  | Updating uid updatedBalance row env =>
      match update_balance uid updatedBalance (update_fault env) db with
      | Error e => (db, Returned (caught e))
      | Data db' => (db', Inserting row env)
      end
  | Inserting row env =>
      match insert_transaction row (insert_fault env) db with
      | Error e => (db, Returned (caught e))
      | Data db' => (db', Returned Success)
      end
  | Returned o => (db, Returned o)
  end.

(** The calls in flight and the store they share.  A schedule names, turn
    by turn, the call whose pending request the store serves next. *)
Definition System : Type := Store * list Task.

Definition step_at (i : nat) (sys : System) : System :=
  match sys.2 !! i with
  | Some t => ((step t sys.1).1, <[i := (step t sys.1).2]> sys.2)
  | None => sys
  end.

Definition run_schedule (schedule : list nat) (sys : System) : System :=
  foldl (fun s i => step_at i s) sys schedule.

(** One call run to its end without anyone in between. *)
Definition alone (t : Task) (db : Store) : Store * Task :=
  let '(db1, t1) := step t db in
  let '(db2, t2) := step t1 db1 in
  step t2 db2.

(** Calls run one after the other: three turns each, in order. *)
Definition one_by_one (n : nat) : list nat :=
  flat_map (fun i => [i; i; i]) (seq 0 n).

(** [n] deposits of [a] by the same owner, each from a page that holds
    some balance of its own. *)
Definition deposits (uid : UserId) (a : Z) (pages : list (Z * string)) : list Task :=
  map (fun pg => Called {| user := Some uid; currentBalance := pg.1 |}
                   deposit a pg.2 no_faults) pages.

Definition all_succeeded (tasks : list Task) : Prop :=
  Forall (fun t => t = Returned Success) tasks.

(** Concurrency safety, for one schedule. *)
Definition concurrency_safe (uid : UserId) (a B0 : Z) (pages : list (Z * string))
  (db : Store) (schedule : list nat) : Prop :=
  stored_balance uid db = Some B0 ->
  all_succeeded (run_schedule schedule (db, deposits uid a pages)).2 ->
  stored_balance uid (run_schedule schedule (db, deposits uid a pages)).1
    = Some (B0 + Z.of_nat (length pages) * a)
  /\ length (appended db (run_schedule schedule (db, deposits uid a pages)).1)
    = length pages.

(** ** Deposits in flight: what stays true turn after turn

    The measure of progress of a call is whether its balance update has
    been served ([past_update]) and whether it has returned
    ([has_returned]). *)

(** 1 once the balance update of the call has been served. *)
Definition past_update (t : Task) : nat :=
  match t with
  | Inserting _ _ | Returned _ => 1
  | _ => 0
  end.

(** 1 once the call has returned. *)
Definition has_returned (t : Task) : nat :=
  match t with
  | Returned _ => 1
  | _ => 0
  end.

(** The number of calls a measure counts. *)
Definition tally (f : Task -> nat) (tasks : list Task) : nat :=
  foldr (fun t n => (f t + n)%nat) 0%nat tasks.

(** A call of the deposit of [a] by [uid], at any of its stages, when
    [updates] balance updates have been served: the balance it is about to
    write is the starting balance plus at most [updates + 1] times [a]. *)
Definition depositing (uid : UserId) (a B0 : Z) (updates : nat) (t : Task) : Prop :=
  match t with
  | Called props type amount _ env =>
      user props = Some uid /\ type = deposit /\ amount = a /\ env = no_faults
  | Updating uid' updatedBalance row env =>
      uid' = uid /\ env = no_faults /\ transaction_type row = "deposit"
      /\ exists j : nat,
           (1 <= j <= updates + 1)%nat /\ updatedBalance = B0 + Z.of_nat j * a
  | Inserting row env => env = no_faults /\ transaction_type row = "deposit"
  | Returned o => o = Success
  end.

(** The invariant of the deposits in flight: every call is at a stage of
    the deposit, the stored balance is the starting balance plus [k] times
    [a] for a [k] between 1 (once an update was served) and the number of
    updates served, and the table has grown by one row per returned call. *)
Definition deposits_in_flight (uid : UserId) (a B0 : Z) (rows0 : nat)
  (sys : System) : Prop :=
  Forall (depositing uid a B0 (tally past_update sys.2)) sys.2
  /\ (exists k : nat,
        stored_balance uid sys.1 = Some (B0 + Z.of_nat k * a)
        /\ (k <= tally past_update sys.2)%nat
        /\ (0 < tally past_update sys.2 -> 1 <= k)%nat)
  /\ length (transactions sys.1) = (rows0 + tally has_returned sys.2)%nat.

End Concurrent.

(** ** Vocabulary of the statements *)

(** The change a transaction of [amount] makes to a balance. *)
Definition delta (type : TransactionType) (amount : Z) : Z :=
  match type with
  | deposit => amount
  | withdraw => - amount
  end.

(** The store after the balance update of [uid], and after the insert of a row. *)
Definition with_balance (uid : UserId) (b : Z) (db : Store) : Store :=
  {| profiles := alter (set_balance b) uid (profiles db);
     transactions := transactions db |}.

Definition with_record (row : Transaction) (db : Store) : Store :=
  {| profiles := profiles db; transactions := transactions db ++ [row] |}.

(** The row [handleTransaction] inserts when it read the balance [b]. *)
Definition record_of (uid : UserId) (type : TransactionType) (amount : Z)
  (description : string) (b : Z) : Transaction :=
  {| user_id := uid;
     amount := amount;
     transaction_type := literal type;
     description :=
       or_else description
         (String.append
            (match type with
             | deposit => "Deposit"
             | withdraw => "Withdrawal"
             end)
            " transaction");
     balance_after := b + delta type amount |}.

(** The CHECK of [transactions], as an invariant of the table. *)
Definition transactions_checked (db : Store) : Prop :=
  Forall (fun t => transaction_type_check (transaction_type t) = true)
    (transactions db).

(** The stores the program produces: it starts with an empty [transactions]
    table and changes the store through its handlers only. *)
Inductive Produced : Store -> Prop :=
| produced_start profiles0 :
    Produced {| profiles := profiles0; transactions := [] |}
| produced_handleTransaction db props type amount description env :
    Produced db ->
    Produced (BankingOperations.handleTransaction props type amount description env db).1
| produced_handleDeposit db uid st env :
    Produced db ->
    Produced (Dashboard.handleDeposit uid st env db).1
| produced_handleWithdraw db uid st env :
    Produced db ->
    Produced (Dashboard.handleWithdraw uid st env db).1
| produced_handleSaveProfile db uid st fault :
    Produced db ->
    Produced (ProfilePage.handleSaveProfile uid st fault db).1.

(** [suffix] ends [s]. *)
Definition ends_with (suffix s : string) : bool :=
  (String.length suffix <=? String.length s)%nat
  && String.eqb
       (String.substring (String.length s - String.length suffix)
          (String.length suffix) s)
       suffix.

(** A description of the form "<Kind> transaction". *)
Definition kind_transaction_form (d : string) : bool :=
  ends_with " transaction" d && (String.length " transaction" <? String.length d)%nat.

Definition last_description (db : Store) : option string :=
  description <$> last (transactions db).

(** An outcome tells the user that the store was changed when no run that
    leaves the store as it was ends with it. *)
Definition tells_of_a_write (o : Outcome) : Prop :=
  forall props type amount description env db,
    (BankingOperations.handleTransaction props type amount description env db).1 = db ->
    (BankingOperations.handleTransaction props type amount description env db).2 <> o.

(** A run handles a failed insert when it leaves the store as it was or
    tells of the write, and does not report success. *)
Definition partial_failure_handled (props : BankingOperations.Props)
  (type : TransactionType) (amount : Z) (description : string) (env : Faults)
  (db : Store) : Prop :=
  ((BankingOperations.handleTransaction props type amount description env db).1 = db
   \/ tells_of_a_write
        (BankingOperations.handleTransaction props type amount description env db).2)
  /\ (BankingOperations.handleTransaction props type amount description env db).2
     <> Success.


(** ** Sample data *)

Definition asha : Profile :=
  {| name := "Asha"; phone := "9000000001"; account_type := "savings";
     balance := 100000 |}.

(** One account holding 1000.00 and no transaction yet. *)
Definition bank : Store :=
  {| profiles := {[ "u1" := asha ]}; transactions := [] |}.

(** The same account opened at 0.00. *)
Definition fresh_bank : Store :=
  {| profiles := {[ "u1" := set_balance 0 asha ]}; transactions := [] |}.

Definition insert_fails : Faults :=
  {| fetch_fault := None; update_fault := None; insert_fault := Some "timeout" |}.

Definition update_fails : Faults :=
  {| fetch_fault := None; update_fault := Some "timeout"; insert_fault := None |}.

(** A deposit of 500.00 from a page that holds the stored 1000.00. *)
Definition deposit_500 (env : Faults) : Sequential.Call :=
  {| Sequential.held := 100000; Sequential.type := deposit;
     Sequential.value := 50000; Sequential.memo := "";
     Sequential.env := env |}.

(** A withdrawal of 2000.00, more than the account holds. *)
Definition withdraw_2000 : Sequential.Call :=
  {| Sequential.held := 150000; Sequential.type := withdraw;
     Sequential.value := 200000; Sequential.memo := "rent";
     Sequential.env := no_faults |}.

(** A withdrawal of 300.00 from a page that holds 1500.00. *)
Definition withdraw_300 (env : Faults) : Sequential.Call :=
  {| Sequential.held := 150000; Sequential.type := withdraw;
     Sequential.value := 30000; Sequential.memo := "";
     Sequential.env := env |}.

(** The Dashboard page holding the profile [kept], with [field] typed in
    both amount fields. *)
Definition dashboard_page (kept : Profile) (field : option Z) : Dashboard.State :=
  {| Dashboard.profile := Some kept;
     Dashboard.depositAmount := field;
     Dashboard.withdrawAmount := field |}.

(** The Profile page once Asha's profile is loaded and the edit form opened. *)
Definition profile_page : ProfilePage.State :=
  {| ProfilePage.profile := Some asha;
     ProfilePage.editForm :=
       {| ProfilePage.form_name := "Asha";
          ProfilePage.form_phone := "9000000001";
          ProfilePage.form_account_type := "savings" |};
     ProfilePage.isEditing := true |}.

(** Two pages that both hold the balance 0.00, without memo. *)
Definition two_pages : list (Z * string) := [(0, ""); (0, "")].

(** Both calls read the balance before either writes it. *)
Definition both_read_first : list nat := [0; 1; 0; 1; 0; 1]%nat.

(** ** The Dashboard that hosts BankingOperations

    The page fetches the profile, shows it, and renders BankingOperations
    with the kept balance as [currentBalance] and its own [fetchProfile] as
    [onBalanceUpdate].  The store client answers a failure in [error]. *)

Module DashboardHost.
Import BankingOperations.

Record State := {
  profile : option Profile;
  profileLoading : bool
}.

Definition fetchProfile (uid : UserId) (fault : option Err) (st : State)
  (db : Store) : State * Outcome :=
  match select_profile uid fault db with
  | Error _ =>
      ({| profile := profile st; profileLoading := false |},
       Failed "Failed to load profile data")
  | Data data => ({| profile := Some data; profileLoading := false |}, Silent)
  end.

(** BankingOperations is rendered once the loading is over and a profile
    is kept; these are the props it is given. *)
Definition banking_props (uid : UserId) (st : State) : option Props :=
  if profileLoading st then None
  else match profile st with
       | Some kept => Some {| user := Some uid; currentBalance := balance kept |}
       | None => None
       end.

(** A submit of one of the two forms of the hosted component: the submit
    handler runs, and [handleTransaction] calls [onBalanceUpdate] after its
    success toast; [refetch] is the failure injected into that fetch. *)
Definition submit (uid : UserId) (st : State) (type : TransactionType)
  (amount : Z) (description : string) (env : Faults) (refetch : option Err)
  (db : Store) : Store * (State * Outcome) :=
  match banking_props uid st with
  | None => (db, (st, Silent))
  | Some props =>
      let r :=
        match type with
        | deposit => handleDepositSubmit props amount description env db
        | withdraw => handleWithdrawSubmit props amount description env db
        end in
      (r.1,
       (match r.2 with
        | Success => (fetchProfile uid refetch st r.1).1
        | _ => st
        end,
        r.2))
  end.

(** The page shows the balance the store holds. *)
Definition in_sync (uid : UserId) (st : State) (db : Store) : Prop :=
  exists kept,
    profile st = Some kept /\ profileLoading st = false
    /\ stored_balance uid db = Some (balance kept).

End DashboardHost.

(** ** The list of recent transactions

    The TransactionHistory component and the Dashboard page with its own
    forms run the same query: the owner's rows, newest first, ten at most.
    An error is logged and the list kept. *)

Module TransactionHistory.

Definition fetchTransactions (uid : UserId) (fault : option Err)
  (shown : list Transaction) (db : Store) : list Transaction :=
  match fault with
  | Some _ => shown
  | None => take 10 (reverse (filter (fun t => user_id t = uid) (transactions db)))
  end.

End TransactionHistory.

(** ** The rest of the Profile settings page *)

Module ProfileEditing.
Import ProfilePage.

(** The form filled from a profile. *)
Definition form_of (p : Profile) : EditForm :=
  {| form_name := name p; form_phone := phone p;
     form_account_type := account_type p |}.

Definition fetchProfile (uid : UserId) (fault : option Err) (st : State)
  (db : Store) : State * Outcome :=
  match select_profile uid fault db with
  | Error _ => (st, Failed "Failed to load profile data")
  | Data data =>
      ({| profile := Some data; editForm := form_of data;
          isEditing := isEditing st |}, Silent)
  end.

Definition handleCancelEdit (st : State) : State :=
  {| profile := profile st;
     editForm :=
       match profile st with
       | Some kept => form_of kept
       | None => editForm st
       end;
     isEditing := false |}.

End ProfileEditing.

(** ** The trigger that opens an account

    [handle_new_user] runs after a user is inserted and inserts the profile
    from the metadata of the sign-up; a key the metadata lacks reads NULL
    and [COALESCE] gives its default.  The text under [initial_balance] is
    cast to decimal: the cast raises on a text that is not a number, and a
    number is stored rounded to the two digits of the column, when the
    column can hold it. *)

(** What the cast makes of the text under [initial_balance]: an error, or a
    number, given in paise as the column rounds it (an infinite one is a
    number outside every range).  The text 'NaN', which the cast accepts
    and which is no amount of money, is not among the inputs. *)
Inductive MetaDecimal :=
| NotNumeric
| Numeric (v : Z).

Record UserMetaData := {
  meta_name : option string;
  meta_phone : option string;
  meta_account_type : option string;
  meta_initial_balance : option MetaDecimal
}.

Definition invalid_numeric : Err := "invalid input syntax for type numeric".
Definition numeric_overflow : Err := "numeric field overflow".
Definition unique_violation : Err :=
  "duplicate key value violates unique constraint".

(** A value, in paise, that a [DECIMAL(12,2)] column holds: less than
    10^10 rupees in size. *)
Definition fits_decimal_12_2 (v : Z) : bool :=
  (- 10 ^ 12 <? v) && (v <? 10 ^ 12).

(** [INSERT INTO public.profiles]: the balance has to fit its column, the
    row has to pass the CHECK of [account_type], and [user_id] is UNIQUE;
    the row is formed and checked before the unique index is tried. *)
Definition insert_profile (uid : UserId) (row : Profile) (db : Store)
  : Response Store :=
  if negb (fits_decimal_12_2 (balance row)) then Error numeric_overflow
  else if negb (account_type_check (account_type row)) then Error check_violation
  else
    match profiles db !! uid with
    | Some _ => Error unique_violation
    | None =>
        Data {| profiles := <[uid := row]> (profiles db);
                transactions := transactions db |}
    end.

Definition handle_new_user (new_id : UserId) (meta : UserMetaData) (db : Store)
  : Response Store :=
  match meta_initial_balance meta with
  | Some NotNumeric => Error invalid_numeric
  | initial_balance =>
      insert_profile new_id
        {| name := default "User" (meta_name meta);
           phone := default "" (meta_phone meta);
           account_type := default "savings" (meta_account_type meta);
           balance :=
             match initial_balance with
             | Some (Numeric v) => v
             | _ => 0
             end |}
        db
  end.

(** The balance a sign-up opens the account with. *)
Definition opening_balance (meta : UserMetaData) : Z :=
  match meta_initial_balance meta with
  | Some (Numeric v) => v
  | _ => 0
  end.

(** The initial balance of a sign-up is absent, or a number that the
    column holds. *)
Definition initial_balance_accepted (meta : UserMetaData) : bool :=
  match meta_initial_balance meta with
  | Some NotNumeric => false
  | Some (Numeric v) => fits_decimal_12_2 v
  | None => true
  end.

(** ** The amount inputs of the Dashboard page

    Both forms of the page are submitted by the browser, which runs the
    handler only when the amount input passes the constraints the page
    declares on it: [required], [min="0.01"] and, for the withdrawal,
    [max={profile.balance}]; [step="0.01"] holds of every amount counted in
    paise, and neither form has [noValidate].  A submit that is held back
    calls no handler: no toast of the page, no call to the store.  The
    forms are rendered once a profile is kept. *)

Module DashboardForms.

(** What the browser finds wrong with the value of an amount input. *)
Inductive Validity :=
  | Valid
  | ValueMissing
  | RangeUnderflow
  | RangeOverflow.

(** [<Input type="number" min="0.01" max=... required />]; an underflow is
    reported before an overflow. *)
Definition validity (max : option Z) (value : option Z) : Validity :=
  match value with
  | None => ValueMissing
  | Some a =>
      if a <? 1 then RangeUnderflow
      else match max with
           | Some m => if m <? a then RangeOverflow else Valid
           | None => Valid
           end
  end.

(** [id="deposit-amount"] *)
Definition deposit_input (st : Dashboard.State) : Validity :=
  validity None (Dashboard.depositAmount st).

(** [id="withdraw-amount"] *)
Definition withdraw_input (st : Dashboard.State) : Validity :=
  validity (option_map balance (Dashboard.profile st))
    (Dashboard.withdrawAmount st).

(** [<form onSubmit={handleDeposit}>] *)
Definition submitDeposit (uid : UserId) (st : Dashboard.State) (env : Faults)
  (db : Store) : Store * (Dashboard.State * Outcome) :=
  match Dashboard.profile st, deposit_input st with
  | Some _, Valid => Dashboard.handleDeposit uid st env db
  | _, _ => (db, (st, Silent))
  end.

(** [<form onSubmit={handleWithdraw}>] *)
Definition submitWithdraw (uid : UserId) (st : Dashboard.State) (env : Faults)
  (db : Store) : Store * (Dashboard.State * Outcome) :=
  match Dashboard.profile st, withdraw_input st with
  | Some _, Valid => Dashboard.handleWithdraw uid st env db
  | _, _ => (db, (st, Silent))
  end.

End DashboardForms.

(** ** More vocabulary *)

(** The Dashboard page with its own forms shows the balance the store holds. *)
Definition dashboard_in_sync (uid : UserId) (st : Dashboard.State) (db : Store)
  : Prop :=
  exists kept,
    Dashboard.profile st = Some kept
    /\ stored_balance uid db = Some (balance kept).

(** The running total of a history: the balance after each row when the
    rows are replayed over [start]. *)
Fixpoint running_balances (start : Z) (rows : list Transaction) : list Z :=
  match rows with
  | [] => []
  | t :: rest =>
      (start + signed_amount t) :: running_balances (start + signed_amount t) rest
  end.

(** The CHECK of [profiles], as an invariant of the table. *)
Definition profiles_checked (db : Store) : Prop :=
  map_Forall (fun _ p => account_type_check (account_type p) = true) (profiles db).

(** No account is overdrawn. *)
Definition balances_nonnegative (db : Store) : Prop :=
  map_Forall (fun _ p => 0 <= balance p) (profiles db).

(** The balance the Dashboard page holds is not negative. *)
Definition kept_nonnegative (st : Dashboard.State) : Prop :=
  forall kept, Dashboard.profile st = Some kept -> 0 <= balance kept.

(** A call in flight that a submit handler of BankingOperations can have
    started: a deposit has an amount that is not negative, and a balance
    about to be written is not negative. *)
Definition started_by_submit (t : Concurrent.Task) : Prop :=
  match t with
  | Concurrent.Called _ type amount _ _ => type = deposit -> 0 <= amount
  | Concurrent.Updating _ updatedBalance _ _ => 0 <= updatedBalance
  | _ => True
  end.

(** 1 for a call that returned with success. *)
Definition succeeded (t : Concurrent.Task) : nat :=
  match t with
  | Concurrent.Returned Success => 1
  | _ => 0
  end.

(** The owner's history as the Transactions page fetches it. *)
Definition history (uid : UserId) (db : Store) : list Transaction :=
  reverse (filter (fun t => user_id t = uid) (transactions db)).

(** A row with the profile's balance put aside. *)
Definition details (p : Profile) : string * string * string :=
  (name p, phone p, account_type p).

(** ** Proof steps *)

(** Unfolds a handler down to the decisions it takes. *)
Ltac run_body :=
  unfold BankingOperations.handleTransaction, Dashboard.handleDeposit,
    Dashboard.handleWithdraw, ProfilePage.handleSaveProfile,
    try_catch, bind, await_read, await_write, ret,
    select_balance, update_balance, update_details, insert_transaction.


(** Closes a statement about an outcome that is known, from the facts at
    hand. *)
Ltac settle_outcome :=
  repeat split; intros; try discriminate; try lia; try assumption;
  try reflexivity;
  intuition (try discriminate; try lia; try congruence).

(** * Properties *)

(** ** What one call of [handleTransaction] does *)

Section HandleTransaction.
Import BankingOperations.

Lemma transaction_type_check_literal type :
  transaction_type_check (literal type) = true.
Proof. destruct type; reflexivity. Qed.

(** The body of [handleTransaction] for a signed-in owner with a profile
    row, as one decision list. *)
Lemma handleTransaction_eq uid held type amount description env db p :
  profiles db !! uid = Some p ->
  handleTransaction {| user := Some uid; currentBalance := held |}
    type amount description env db
  = if is_withdraw type && (held - amount <? 0) then (db, InsufficientFunds)
    else match fetch_fault env with
         | Some e => (db, caught e)
         | None =>
             if is_withdraw type && (balance p - amount <? 0)
             then (db, InsufficientFunds)
             else match update_fault env with
                  | Some e => (db, caught e)
                  | None =>
                      let db1 := with_balance uid (balance p + delta type amount) db in
                      match insert_fault env with
                      | Some e => (db1, caught e)
                      | None =>
                          (with_record
                             (record_of uid type amount description (balance p)) db1,
                           Success)
                      end
                  end
         end.
Proof.
  intros Hp.
  unfold handleTransaction, try_catch, bind, await_read, await_write, ret,
    select_balance, update_balance, insert_transaction.
  cbn [user currentBalance].
  destruct type; cbn [is_withdraw andb].
  - rewrite Hp.
    destruct (fetch_fault env), (update_fault env), (insert_fault env);
      reflexivity.
  - destruct (held - amount <? 0); [reflexivity|]. rewrite Hp.
    destruct (fetch_fault env); [reflexivity|].
    destruct (balance p - amount <? 0); [reflexivity|].
    destruct (update_fault env), (insert_fault env); reflexivity.
Qed.

Lemma stored_balance_Some uid db b :
  stored_balance uid db = Some b ->
  exists p, profiles db !! uid = Some p /\ balance p = b.
Proof.
  unfold stored_balance. destruct (profiles db !! uid) as [p|]; [|discriminate].
  intros [= <-]. eauto.
Qed.

Lemma stored_balance_with_balance uid b db p :
  profiles db !! uid = Some p ->
  stored_balance uid (with_balance uid b db) = Some b.
Proof.
  intros Hp. unfold stored_balance, with_balance; cbn [profiles].
  rewrite lookup_alter_eq, Hp. reflexivity.
Qed.

Lemma stored_balance_with_record uid row db :
  stored_balance uid (with_record row db) = stored_balance uid db.
Proof. reflexivity. Qed.

Lemma signed_amount_record_of uid type amount description b :
  signed_amount (record_of uid type amount description b) = delta type amount.
Proof. destruct type; reflexivity. Qed.

End HandleTransaction.

(** ** Conservation over calls made one after the other *)

Section Conservation.
Import BankingOperations Sequential.

(** A call whose insert is not failed by the environment either succeeds,
    moving the balance by its signed amount and writing the row of that
    amount, or leaves the store as it was. *)
Lemma perform_cases uid c db b :
  stored_balance uid db = Some b ->
  insert_fault (env c) = None ->
  ((perform uid c db).2 = Success
   /\ stored_balance uid (perform uid c db).1 = Some (b + signed c)
   /\ exists row, transactions (perform uid c db).1 = transactions db ++ [row]
        /\ signed_amount row = signed c)
  \/ ((perform uid c db).2 <> Success /\ (perform uid c db).1 = db).
Proof.
  intros Hb Hins. destruct (stored_balance_Some _ _ _ Hb) as (p & Hp & <-).
  unfold perform. rewrite (handleTransaction_eq _ _ _ _ _ _ _ _ Hp), Hins.
  destruct (is_withdraw (type c) && (held c - value c <? 0));
    [right; split; [discriminate|reflexivity]|].
  destruct (fetch_fault (env c)); [right; split; [discriminate|reflexivity]|].
  destruct (is_withdraw (type c) && (balance p - value c <? 0));
    [right; split; [discriminate|reflexivity]|].
  destruct (update_fault (env c)); [right; split; [discriminate|reflexivity]|].
  left. cbn [fst snd]. split; [reflexivity|]. split.
  - rewrite stored_balance_with_record.
    rewrite (stored_balance_with_balance _ _ _ _ Hp). reflexivity.
  - eexists. split; [reflexivity|]. apply signed_amount_record_of.
Qed.

Lemma run_cons uid c rest db :
  run uid (c :: rest) db
  = ((run uid rest (perform uid c db).1).1,
     (perform uid c db).2 :: (run uid rest (perform uid c db).1).2).
Proof.
  cbn [run]. destruct (perform uid c db) as [db1 o]. cbn [fst snd].
  destruct (run uid rest db1) as [db2 os]. reflexivity.
Qed.

Lemma run_conserves uid calls :
  Forall (fun c => insert_fault (env c) = None) calls ->
  forall db B0, stored_balance uid db = Some B0 ->
    exists rows,
      transactions (run uid calls db).1 = transactions db ++ rows
      /\ stored_balance uid (run uid calls db).1
         = Some (B0 + succeeded_sum calls (run uid calls db).2)
      /\ replay B0 rows = B0 + succeeded_sum calls (run uid calls db).2.
Proof.
  induction 1 as [|c rest Hc Hrest IH]; intros db B0 HB.
  - exists []. cbn. rewrite app_nil_r, Z.add_0_r. auto.
  - rewrite run_cons. cbn [fst snd].
    destruct (perform_cases uid c db B0 HB Hc)
      as [(Ho & Hb1 & row & Hrows & Hrow) | (Ho & Hdb)].
    + destruct (IH _ _ Hb1) as (rows & Ht & Hb & Hr).
      exists (row :: rows). rewrite Ho. cbn [succeeded_sum].
      rewrite Ht, Hrows, <- app_assoc. split; [reflexivity|].
      split; [rewrite Hb; f_equal; lia|].
      change (replay B0 (row :: rows))
        with (replay (B0 + signed_amount row) rows).
      rewrite Hrow, Hr. lia.
    + rewrite Hdb. destruct (IH _ _ HB) as (rows & Ht & Hb & Hr).
      exists rows.
      assert (Hsum : succeeded_sum (c :: rest)
                       ((perform uid c db).2 :: (run uid rest db).2)
                     = succeeded_sum rest (run uid rest db).2).
      { cbn [succeeded_sum]. destruct (perform uid c db).2; congruence. }
      rewrite Hsum. auto.
Qed.

Lemma appended_app db db' rows :
  transactions db' = transactions db ++ rows -> appended db db' = rows.
Proof. intros H. unfold appended. rewrite H. apply drop_app_length. Qed.

(** C1, as amended.  Calls of [handleTransaction] made one after the other
    for one owner, none of whose record inserts is failed: the stored
    balance ends at the starting balance plus the signed amounts of the
    calls that succeeded, and the rows written replay to it. *)
Theorem conservation_when_inserts_succeed uid db calls :
  Forall (fun c => insert_fault (env c) = None) calls ->
  conservation uid db calls.
Proof.
  intros Hins B0 HB.
  destruct (run_conserves uid calls Hins db B0 HB) as (rows & Ht & Hb & Hr).
  split; [exact Hb|].
  rewrite (appended_app _ _ _ Ht), Hr. exact Hb.
Qed.

(** At work: a deposit, a refused withdrawal, a withdrawal whose balance
    update fails and one that goes through. *)
Lemma conservation_when_inserts_succeed_witness :
  Forall (fun c => insert_fault (env c) = None)
    [deposit_500 no_faults; withdraw_2000; withdraw_300 update_fails;
     withdraw_300 no_faults]
  /\ conservation "u1" bank
       [deposit_500 no_faults; withdraw_2000; withdraw_300 update_fails;
        withdraw_300 no_faults].
Proof.
  split.
  - repeat constructor.
  - apply conservation_when_inserts_succeed. repeat constructor.
Defined.

(** C1, as stated, fails: a deposit of 500.00 whose balance update is
    stored and whose record insert is failed ends in the error toast, yet
    the stored balance has moved from 1000.00 to 1500.00. *)
Lemma conservation_broken_by_failed_insert :
  ~ conservation "u1" bank [deposit_500 insert_fails].
Proof.
  intros H. destruct (H 100000 eq_refl) as [H1 _].
  vm_compute in H1. discriminate H1.
Qed.

End Conservation.

(** ** Withdrawals and the balance *)

Section NoOverdraft.
Import BankingOperations.




End NoOverdraft.

(** ** Amounts that are not positive *)

Section Validation.
Import BankingOperations.

(** The submit handlers of BankingOperations refuse an amount that is not
    positive before any call to the store. *)
Lemma submit_refuses_nonpositive props amount description env db :
  amount <= 0 ->
  handleDepositSubmit props amount description env db = (db, InvalidAmount)
  /\ handleWithdrawSubmit props amount description env db = (db, InvalidAmount).
Proof.
  intros Ha. unfold handleDepositSubmit, handleWithdrawSubmit.
  destruct (Z.leb_spec amount 0); [split; reflexivity|lia].
Qed.

End Validation.

(** ** Which balance the new balance is computed from *)

Section Reread.
Import BankingOperations.

(** [handleTransaction] writes the balance it re-read, moved by the amount,
    whatever balance the page holds. *)
Lemma handleTransaction_rereads uid held type amount description env db b :
  stored_balance uid db = Some b ->
  (handleTransaction {| user := Some uid; currentBalance := held |}
     type amount description env db).2 = Success ->
  stored_balance uid
    (handleTransaction {| user := Some uid; currentBalance := held |}
       type amount description env db).1
  = Some (b + delta type amount).
Proof.
  intros Hb. destruct (stored_balance_Some _ _ _ Hb) as (p & Hp & <-).
  rewrite (handleTransaction_eq _ _ _ _ _ _ _ _ Hp).
  destruct (is_withdraw type && (held - amount <? 0)); [discriminate|].
  destruct (fetch_fault env); [discriminate|].
  destruct (is_withdraw type && (balance p - amount <? 0)); [discriminate|].
  destruct (update_fault env); [discriminate|].
  destruct (insert_fault env); [discriminate|].
  intros _. cbn [fst]. rewrite stored_balance_with_record.
  apply (stored_balance_with_balance _ _ _ _ Hp).
Qed.

(** C4 fails on the Dashboard page's own forms: the page still holds the
    balance 0.00 it fetched while the account holds 1000.00; a deposit of
    50.00 stores 50.00, the held balance plus the amount, and not 1050.00. *)
Theorem dashboard_deposit_uses_kept_balance :
  let d := Dashboard.handleDeposit "u1"
             (dashboard_page (set_balance 0 asha) (Some 5000)) no_faults bank in
  stored_balance "u1" bank = Some 100000
  /\ d.2.2 = Success
  /\ stored_balance "u1" d.1 = Some 5000.
Proof. repeat split; reflexivity. Qed.

End Reread.

(** ** The sign of the stored balance *)

Section NonNegative.
Import BankingOperations.

(** Through the submit handlers of BankingOperations a balance that is not
    negative stays so. *)
Lemma submit_keeps_balance_nonnegative uid held amount description env db b b' :
  stored_balance uid db = Some b ->
  0 <= b ->
  (stored_balance uid
     (handleDepositSubmit {| user := Some uid; currentBalance := held |}
        amount description env db).1 = Some b' -> 0 <= b')
  /\ (stored_balance uid
        (handleWithdrawSubmit {| user := Some uid; currentBalance := held |}
           amount description env db).1 = Some b' -> 0 <= b').
Proof.
  intros Hb Hpos. destruct (stored_balance_Some _ _ _ Hb) as (p & Hp & <-).
  unfold handleDepositSubmit, handleWithdrawSubmit.
  destruct (Z.leb_spec amount 0) as [Ha|Ha]; cbn [fst].
  { rewrite Hb. split; intros [= <-]; exact Hpos. }
  split.
  - rewrite (handleTransaction_eq _ _ _ _ _ _ _ _ Hp). cbn [is_withdraw andb].
    destruct (fetch_fault env); cbn [fst]; [rewrite Hb; intros [= <-]; exact Hpos|].
    destruct (update_fault env); cbn [fst]; [rewrite Hb; intros [= <-]; exact Hpos|].
    destruct (insert_fault env); cbn [fst]; rewrite ?stored_balance_with_record,
      (stored_balance_with_balance _ _ _ _ Hp); intros [= <-]; cbn [delta]; lia.
  - cbn [currentBalance].
    destruct (amount >? held); cbn [fst]; [rewrite Hb; intros [= <-]; exact Hpos|].
    rewrite (handleTransaction_eq _ _ _ _ _ _ _ _ Hp). cbn [is_withdraw andb].
    destruct (held - amount <? 0); cbn [fst];
      [rewrite Hb; intros [= <-]; exact Hpos|].
    destruct (fetch_fault env); cbn [fst]; [rewrite Hb; intros [= <-]; exact Hpos|].
    destruct (Z.ltb_spec (balance p - amount) 0); cbn [fst];
      [rewrite Hb; intros [= <-]; exact Hpos|].
    destruct (update_fault env); cbn [fst]; [rewrite Hb; intros [= <-]; exact Hpos|].
    destruct (insert_fault env); cbn [fst]; rewrite ?stored_balance_with_record,
      (stored_balance_with_balance _ _ _ _ Hp); intros [= <-]; cbn [delta]; lia.
Qed.

End NonNegative.

(** ** A failed insert after a stored balance *)

Section PartialFailure.
Import BankingOperations.

(** C6, as amended.  When the balance update is stored and the record
    insert fails, [handleTransaction] does not report success: it shows the
    error toast of its [catch] with the insert's message, the same toast as
    for a failure that wrote nothing; the new balance stays stored and no
    row is written. *)
Theorem failed_insert_leaves_balance_written
  uid held type amount description env db b e :
  stored_balance uid db = Some b ->
  (type = withdraw -> amount <= held /\ amount <= b) ->
  fetch_fault env = None ->
  update_fault env = None ->
  insert_fault env = Some e ->
  let r := handleTransaction {| user := Some uid; currentBalance := held |}
             type amount description env db in
  r.2 = caught e
  /\ r.2 <> Success
  /\ stored_balance uid r.1 = Some (b + delta type amount)
  /\ transactions r.1 = transactions db
  /\ (handleTransaction {| user := Some uid; currentBalance := held |}
        type amount description
        {| fetch_fault := None; update_fault := Some e; insert_fault := None |}
        db)
     = (db, r.2).
Proof.
  intros Hb Hw Hf Hu Hi r. destruct (stored_balance_Some _ _ _ Hb) as (p & Hp & <-).
  subst r. rewrite !(handleTransaction_eq _ _ _ _ _ _ _ _ Hp), Hf, Hu, Hi.
  cbn [fetch_fault update_fault insert_fault].
  assert (Hpre : is_withdraw type && (held - amount <? 0) = false).
  { destruct type; [reflexivity|]. destruct (Hw eq_refl).
    cbn. apply Z.ltb_ge. lia. }
  assert (Hre : is_withdraw type && (balance p - amount <? 0) = false).
  { destruct type; [reflexivity|]. destruct (Hw eq_refl).
    cbn. apply Z.ltb_ge. lia. }
  rewrite Hpre, Hre. cbn [fst snd].
  repeat split; try discriminate.
  apply (stored_balance_with_balance _ _ _ _ Hp).
Qed.

Lemma failed_insert_leaves_balance_written_witness :
  (handleTransaction {| user := Some "u1"; currentBalance := 100000 |}
     deposit 50000 "" insert_fails bank).2 = caught "timeout"
  /\ stored_balance "u1"
       (handleTransaction {| user := Some "u1"; currentBalance := 100000 |}
          deposit 50000 "" insert_fails bank).1 = Some 150000.
Proof.
  pose proof (failed_insert_leaves_balance_written "u1" 100000 deposit 50000 ""
                insert_fails bank 100000 "timeout" eq_refl
                ltac:(discriminate) eq_refl eq_refl eq_refl) as H.
  cbv zeta in H. split; [apply H|]. apply H.
Defined.

(** C6, as stated, fails: a deposit of 500.00 whose insert is failed leaves
    the balance at 1500.00 with no row for it, and ends with the very toast
    of the run whose balance update failed and which wrote nothing. *)
Lemma partial_failure_left_unhandled :
  ~ partial_failure_handled {| user := Some "u1"; currentBalance := 100000 |}
      deposit 50000 "" insert_fails bank.
Proof.
  intros [[Hsame|Htells] _].
  - apply (f_equal (stored_balance "u1")) in Hsame.
    vm_compute in Hsame. discriminate Hsame.
  - apply (Htells {| user := Some "u1"; currentBalance := 100000 |}
             deposit 50000 "" update_fails bank); reflexivity.
Qed.

End PartialFailure.

(** ** What the handlers write to the [transactions] table *)

Section Written.
Import BankingOperations.

(** A run of [handleTransaction] either succeeds and has appended one row,
    of the literal of its type, or does not succeed and has left the table
    as it was. *)
Lemma handleTransaction_written props type amount memo env db :
  ((handleTransaction props type amount memo env db).2 = Success
   /\ exists row,
        transactions (handleTransaction props type amount memo env db).1
          = transactions db ++ [row]
        /\ transaction_type row = literal type
        /\ description row
           = or_else memo
               (String.append
                  (match type with
                   | deposit => "Deposit"
                   | withdraw => "Withdrawal"
                   end)
                  " transaction"))
  \/ ((handleTransaction props type amount memo env db).2 <> Success
      /\ transactions (handleTransaction props type amount memo env db).1
         = transactions db).
Proof.
  run_body. destruct (user props) as [uid|]; [|right; split; [discriminate|reflexivity]].
  destruct type; cbn [is_withdraw andb literal].
  - destruct (fetch_fault env); [right; split; [discriminate|reflexivity]|].
    destruct (profiles db !! uid); [|right; split; [discriminate|reflexivity]].
    destruct (update_fault env); [right; split; [discriminate|reflexivity]|].
    destruct (insert_fault env); [right; split; [discriminate|reflexivity]|].
    left. split; [reflexivity|]. eexists. repeat split; reflexivity.
  - destruct (currentBalance props - amount <? 0);
      [right; split; [discriminate|reflexivity]|].
    destruct (fetch_fault env); [right; split; [discriminate|reflexivity]|].
    destruct (profiles db !! uid) as [p|]; [|right; split; [discriminate|reflexivity]].
    destruct (balance p - amount <? 0); [right; split; [discriminate|reflexivity]|].
    destruct (update_fault env); [right; split; [discriminate|reflexivity]|].
    destruct (insert_fault env); [right; split; [discriminate|reflexivity]|].
    left. split; [reflexivity|]. eexists. repeat split; reflexivity.
Qed.

(** The bodies of the Dashboard page's handlers, as decision lists. *)
Lemma handleDeposit_eq uid st env db kept amount :
  Dashboard.profile st = Some kept ->
  Dashboard.depositAmount st = Some amount ->
  Dashboard.handleDeposit uid st env db
  = match update_fault env with
    | Some e => (db, (st, Failed e))
    | None =>
        let db1 := with_balance uid (balance kept + amount) db in
        match insert_fault env with
        | Some e => (db1, (st, Failed e))
        | None =>
            (with_record
               {| user_id := uid; amount := amount; transaction_type := "deposit";
                  description := "Account Deposit";
                  balance_after := balance kept + amount |} db1,
             ({| Dashboard.profile := Some (set_balance (balance kept + amount) kept);
                 Dashboard.depositAmount := None;
                 Dashboard.withdrawAmount := Dashboard.withdrawAmount st |},
              Success))
        end
    end.
Proof.
  intros Hk Ha. run_body. rewrite Hk, Ha.
  destruct (update_fault env), (insert_fault env); reflexivity.
Qed.

Lemma handleWithdraw_eq uid st env db kept amount :
  Dashboard.profile st = Some kept ->
  Dashboard.withdrawAmount st = Some amount ->
  Dashboard.handleWithdraw uid st env db
  = if amount >? balance kept then (db, (st, InsufficientFunds))
    else match update_fault env with
         | Some e => (db, (st, Failed e))
         | None =>
             let db1 := with_balance uid (balance kept - amount) db in
             match insert_fault env with
             | Some e => (db1, (st, Failed e))
             | None =>
                 (with_record
                    {| user_id := uid; amount := amount;
                       transaction_type := "withdraw";
                       description := "Account Withdrawal";
                       balance_after := balance kept - amount |} db1,
                  ({| Dashboard.profile :=
                        Some (set_balance (balance kept - amount) kept);
                      Dashboard.depositAmount := Dashboard.depositAmount st;
                      Dashboard.withdrawAmount := None |},
                   Success))
             end
         end.
Proof.
  intros Hk Ha. run_body. rewrite Hk, Ha.
  destruct (amount >? balance kept); [reflexivity|].
  destruct (update_fault env), (insert_fault env); reflexivity.
Qed.

Lemma handleDeposit_written uid st env db :
  ((Dashboard.handleDeposit uid st env db).2.2 = Success
   /\ exists row,
        transactions (Dashboard.handleDeposit uid st env db).1
          = transactions db ++ [row]
        /\ transaction_type row = "deposit"
        /\ description row = "Account Deposit")
  \/ ((Dashboard.handleDeposit uid st env db).2.2 <> Success
      /\ transactions (Dashboard.handleDeposit uid st env db).1 = transactions db).
Proof.
  destruct (Dashboard.profile st) as [kept|] eqn:Hk;
    [|right; unfold Dashboard.handleDeposit; rewrite Hk;
      split; [discriminate|reflexivity]].
  destruct (Dashboard.depositAmount st) as [amount|] eqn:Ha;
    [|right; unfold Dashboard.handleDeposit; rewrite Hk, Ha;
      split; [discriminate|reflexivity]].
  rewrite (handleDeposit_eq _ _ _ _ _ _ Hk Ha).
  destruct (update_fault env); [right; split; [discriminate|reflexivity]|].
  destruct (insert_fault env); [right; split; [discriminate|reflexivity]|].
  left. split; [reflexivity|]. eexists. repeat split; reflexivity.
Qed.

Lemma handleWithdraw_written uid st env db :
  ((Dashboard.handleWithdraw uid st env db).2.2 = Success
   /\ exists row,
        transactions (Dashboard.handleWithdraw uid st env db).1
          = transactions db ++ [row]
        /\ transaction_type row = "withdraw"
        /\ description row = "Account Withdrawal")
  \/ ((Dashboard.handleWithdraw uid st env db).2.2 <> Success
      /\ transactions (Dashboard.handleWithdraw uid st env db).1 = transactions db).
Proof.
  destruct (Dashboard.profile st) as [kept|] eqn:Hk;
    [|right; unfold Dashboard.handleWithdraw; rewrite Hk;
      split; [discriminate|reflexivity]].
  destruct (Dashboard.withdrawAmount st) as [amount|] eqn:Ha;
    [|right; unfold Dashboard.handleWithdraw; rewrite Hk, Ha;
      split; [discriminate|reflexivity]].
  rewrite (handleWithdraw_eq _ _ _ _ _ _ Hk Ha).
  destruct (amount >? balance kept); [right; split; [discriminate|reflexivity]|].
  destruct (update_fault env); [right; split; [discriminate|reflexivity]|].
  destruct (insert_fault env); [right; split; [discriminate|reflexivity]|].
  left. split; [reflexivity|]. eexists. repeat split; reflexivity.
Qed.

Lemma handleSaveProfile_written uid st fault db :
  transactions (ProfilePage.handleSaveProfile uid st fault db).1 = transactions db.
Proof.
  run_body. destruct (ProfilePage.profile st); [|reflexivity].
  destruct fault; [reflexivity|].
  destruct (profiles db !! uid); [|reflexivity].
  destruct (account_type_check _); reflexivity.
Qed.

End Written.

(** ** The description of a row written without a memo *)

Section DefaultMemo.
Import BankingOperations.

(** C7, as amended.  A call of [handleTransaction] with an empty description
    that writes its row gives it the description "Deposit transaction" for
    a deposit and "Withdrawal transaction" for a withdrawal.  The Dashboard
    page's own forms take no memo: their rows read "Account Deposit" and
    "Account Withdrawal". *)
Theorem empty_memo_description props type amount env db uid st :
  ((handleTransaction props type amount "" env db).2 = Success ->
   last_description (handleTransaction props type amount "" env db).1
   = Some (match type with
           | deposit => "Deposit transaction"
           | withdraw => "Withdrawal transaction"
           end))
  /\ ((Dashboard.handleDeposit uid st env db).2.2 = Success ->
      last_description (Dashboard.handleDeposit uid st env db).1
      = Some "Account Deposit")
  /\ ((Dashboard.handleWithdraw uid st env db).2.2 = Success ->
      last_description (Dashboard.handleWithdraw uid st env db).1
      = Some "Account Withdrawal").
Proof.
  unfold last_description. repeat split; intros Hs.
  - destruct (handleTransaction_written props type amount "" env db)
      as [(_ & row & -> & _ & Hd) | (Hn & _)]; [|contradiction].
    rewrite last_snoc. cbn. rewrite Hd. destruct type; reflexivity.
  - destruct (handleDeposit_written uid st env db)
      as [(_ & row & -> & _ & Hd) | (Hn & _)]; [|contradiction].
    rewrite last_snoc. cbn. rewrite Hd. reflexivity.
  - destruct (handleWithdraw_written uid st env db)
      as [(_ & row & -> & _ & Hd) | (Hn & _)]; [|contradiction].
    rewrite last_snoc. cbn. rewrite Hd. reflexivity.
Qed.

(** A deposit of 100.00 with an empty memo through BankingOperations. *)
Lemma empty_memo_description_witness :
  last_description
    (handleTransaction {| user := Some "u1"; currentBalance := 100000 |}
       deposit 10000 "" no_faults bank).1
  = Some "Deposit transaction".
Proof.
  apply (empty_memo_description {| user := Some "u1"; currentBalance := 100000 |}
           deposit 10000 no_faults bank "u1" (dashboard_page asha (Some 10000))).
  reflexivity.
Defined.

(** C7, as stated, fails: a deposit of 100.00 from the Dashboard page's
    form, which has no memo, writes a row whose description is
    "Account Deposit", not of the form "<Kind> transaction". *)
Lemma dashboard_deposit_memo_not_default :
  ~ (exists d,
       last_description
         (Dashboard.handleDeposit "u1" (dashboard_page asha (Some 10000))
            no_faults bank).1 = Some d
       /\ kind_transaction_form d = true).
Proof.
  intros (d & Hd & Hform). vm_compute in Hd. injection Hd as <-.
  vm_compute in Hform. discriminate Hform.
Qed.

End DefaultMemo.

(** ** The summary cards of the Transactions page *)

Section WithdrawalCount.
Import BankingOperations TransactionsPage.

Lemma transactions_checked_snoc db db' row :
  transactions_checked db ->
  transactions db' = transactions db ++ [row] ->
  transaction_type_check (transaction_type row) = true ->
  transactions_checked db'.
Proof.
  unfold transactions_checked. intros Hdb -> Hrow.
  apply Forall_app. split; [exact Hdb|]. constructor; [exact Hrow|constructor].
Qed.

Lemma transactions_checked_same db db' :
  transactions_checked db ->
  transactions db' = transactions db ->
  transactions_checked db'.
Proof. unfold transactions_checked. intros Hdb ->. exact Hdb. Qed.

(** Every table the program produces satisfies the CHECK of its type column. *)
Lemma produced_checked db : Produced db -> transactions_checked db.
Proof.
  induction 1 as [profiles0
                 | db props type amount memo env _ IH
                 | db uid st env _ IH
                 | db uid st env _ IH
                 | db uid st fault _ IH].
  - constructor.
  - destruct (handleTransaction_written props type amount memo env db)
      as [(_ & row & Hrows & Htype & _) | (_ & Hsame)].
    + apply (transactions_checked_snoc _ _ _ IH Hrows).
      rewrite Htype. apply transaction_type_check_literal.
    + apply (transactions_checked_same _ _ IH Hsame).
  - destruct (handleDeposit_written uid st env db)
      as [(_ & row & Hrows & Htype & _) | (_ & Hsame)].
    + apply (transactions_checked_snoc _ _ _ IH Hrows). rewrite Htype. reflexivity.
    + apply (transactions_checked_same _ _ IH Hsame).
  - destruct (handleWithdraw_written uid st env db)
      as [(_ & row & Hrows & Htype & _) | (_ & Hsame)].
    + apply (transactions_checked_snoc _ _ _ IH Hrows). rewrite Htype. reflexivity.
    + apply (transactions_checked_same _ _ IH Hsame).
  - apply (transactions_checked_same _ _ IH).
    apply handleSaveProfile_written.
Qed.

(** The CHECK admits 'withdraw' and not 'withdrawal'. *)
Lemma check_excludes_withdrawal t :
  transaction_type_check t = true -> t <> "withdrawal".
Proof. intros Ht ->. discriminate Ht. Qed.

Lemma no_withdrawal_counted (shown : list Transaction) :
  Forall (fun t => transaction_type_check (transaction_type t) = true) shown ->
  totalWithdrawals shown = 0%nat.
Proof.
  unfold totalWithdrawals. induction 1 as [|t shown Ht _ IH]; [reflexivity|].
  rewrite filter_cons_False; [exact IH|].
  apply check_excludes_withdrawal, Ht.
Qed.

(** C8.  The CHECK of [transactions] admits the literal 'withdraw' and not
    'withdrawal'; every withdrawal the handlers record carries 'withdraw';
    the Total Withdrawals card counts the rows that carry 'withdrawal'.  So
    for every store the program produces and every owner the card shows 0,
    whatever number of withdrawals the history holds. *)
Theorem total_withdrawals_always_zero :
  (transaction_type_check "withdraw" = true
   /\ transaction_type_check "withdrawal" = false)
  /\ (forall props amount memo env db,
        (handleTransaction props withdraw amount memo env db).2 = Success ->
        exists row,
          transactions (handleTransaction props withdraw amount memo env db).1
            = transactions db ++ [row]
          /\ transaction_type row = "withdraw")
  /\ (forall uid st env db,
        (Dashboard.handleWithdraw uid st env db).2.2 = Success ->
        exists row,
          transactions (Dashboard.handleWithdraw uid st env db).1
            = transactions db ++ [row]
          /\ transaction_type row = "withdraw")
  /\ (forall db, Produced db ->
        Forall (fun t => transaction_type t = "deposit"
                         \/ transaction_type t = "withdraw") (transactions db)
        /\ forall uid shown,
             fetchTransactions uid None db = Data shown ->
             totalWithdrawals shown = 0%nat).
Proof.
  split; [split; reflexivity|]. split; [|split].
  - intros props amount memo env db Hs.
    destruct (handleTransaction_written props withdraw amount memo env db)
      as [(_ & row & Hrows & Htype & _) | (Hn & _)]; [|contradiction].
    exists row. split; [exact Hrows|exact Htype].
  - intros uid st env db Hs.
    destruct (handleWithdraw_written uid st env db)
      as [(_ & row & Hrows & Htype & _) | (Hn & _)]; [|contradiction].
    exists row. split; [exact Hrows|exact Htype].
  - intros db Hdb. pose proof (produced_checked db Hdb) as Hck. split.
    + unfold transactions_checked in Hck.
      eapply Forall_impl; [exact Hck|]. intros t Ht. cbv beta in Ht.
      unfold transaction_type_check in Ht.
      apply orb_true_iff in Ht as [Ht|Ht]; apply bool_decide_eq_true in Ht; auto.
    + intros uid shown [= <-]. apply no_withdrawal_counted.
      apply Forall_reverse. unfold transactions_checked in Hck.
      rewrite Forall_forall in Hck. apply Forall_forall. intros t Ht.
      apply list_elem_of_filter in Ht as [_ Ht]. apply Hck, Ht.
Qed.

(** A withdrawal of 300.00 is recorded; the card still shows 0. *)
Lemma total_withdrawals_always_zero_witness :
  Produced
    (handleTransaction {| user := Some "u1"; currentBalance := 100000 |}
       withdraw 30000 "" no_faults bank).1
  /\ (exists row,
        transactions
          (handleTransaction {| user := Some "u1"; currentBalance := 100000 |}
             withdraw 30000 "" no_faults bank).1 = [row]
        /\ transaction_type row = "withdraw")
  /\ totalWithdrawals
       (reverse
          (filter (fun t => user_id t = "u1")
             (transactions
                (handleTransaction {| user := Some "u1"; currentBalance := 100000 |}
                   withdraw 30000 "" no_faults bank).1)))
     = 0%nat.
Proof.
  assert (Hp : Produced
                 (handleTransaction {| user := Some "u1"; currentBalance := 100000 |}
                    withdraw 30000 "" no_faults bank).1).
  { apply produced_handleTransaction. apply produced_start. }
  split; [exact Hp|]. split.
  - apply (proj1 (proj2 total_withdrawals_always_zero)). reflexivity.
  - apply (proj2 (proj2 (proj2 (proj2 total_withdrawals_always_zero)) _ Hp) "u1").
    reflexivity.
Defined.

End WithdrawalCount.

(** ** Saving the account type 'fixed' *)

Section SaveProfile.
Import ProfilePage.

(** C10.  The edit form offers the account type 'fixed'.  Once it is
    chosen, a save for a user who has a profile row is refused: the update
    violates the CHECK of [account_type], the page shows its error toast
    and keeps its state, and the store is as it was. *)
Theorem save_fixed_account_type_refused uid st fault db kept p :
  profile st = Some kept ->
  profiles db !! uid = Some p ->
  In "fixed" account_type_options
  /\ account_type_check "fixed" = false
  /\ update_details uid (form_name (editForm st)) (form_phone (editForm st))
       "fixed" None db = Error check_violation
  /\ handleSaveProfile uid (choose_account_type "fixed" st) fault db
     = (db, (choose_account_type "fixed" st, Failed "Failed to update profile")).
Proof.
  intros Hk Hp. split; [cbn; auto|]. split; [reflexivity|].
  unfold handleSaveProfile, update_details.
  cbn [choose_account_type profile editForm form_name form_phone form_account_type].
  rewrite Hk, Hp. split; [reflexivity|].
  destruct fault; reflexivity.
Qed.

Lemma save_fixed_account_type_refused_witness :
  handleSaveProfile "u1" (choose_account_type "fixed" profile_page) None bank
  = (bank, (choose_account_type "fixed" profile_page,
            Failed "Failed to update profile")).
Proof.
  apply (save_fixed_account_type_refused "u1" profile_page None bank asha asha);
    reflexivity.
Defined.

End SaveProfile.

(** ** Calls in flight together *)

Section Interleaving.
Import BankingOperations Concurrent.

Lemma tally_insert f (tasks : list Task) i t t' :
  tasks !! i = Some t ->
  (tally f (<[i := t']> tasks) + f t = tally f tasks + f t')%nat.
Proof.
  revert i. induction tasks as [|x tasks IH]; intros [|i] H; try discriminate.
  - injection H as ->. unfold tally. cbn. lia.
  - specialize (IH i H). unfold tally in *.
    change (<[S i := t']> (x :: tasks)) with (x :: <[i := t']> tasks).
    cbn [foldr]. lia.
Qed.

Lemma depositing_mono uid a B0 u u' t :
  (u <= u')%nat -> depositing uid a B0 u t -> depositing uid a B0 u' t.
Proof.
  intros Hu. destruct t; cbn; auto.
  intros (? & ? & ? & j & ? & ?). repeat split; auto. exists j. split; [lia|auto].
Qed.

(** Preserve: a turn of any call keeps the invariant. *)
Lemma step_at_preserves uid a B0 rows0 i sys :
  deposits_in_flight uid a B0 rows0 sys ->
  deposits_in_flight uid a B0 rows0 (step_at i sys).
Proof.
  destruct sys as [db tasks]. intros (Hall & (k & Hk & Hku & Hk1) & Hlen).
  unfold deposits_in_flight, step_at. cbn [fst snd] in *.
  destruct (tasks !! i) as [t|] eqn:Hi; [|repeat split; eauto].
  pose proof (proj1 (Forall_lookup _ _) Hall i t Hi) as Ht.
  cbn [fst snd].
  destruct t as [props type amount memo env | uid' ub row env | row env | o];
    cbn [depositing] in Ht.
  - destruct Ht as (Hu & -> & -> & ->). cbn [step]. rewrite Hu.
    cbn [is_withdraw andb]. unfold select_balance. cbn [fetch_fault no_faults].
    destruct (stored_balance_Some _ _ _ Hk) as (p & Hp & Hbal). rewrite Hp.
    cbn [fst snd].
    match goal with |- context [<[i := ?new]> tasks] => set (t' := new) end.
    pose proof (tally_insert past_update tasks i _ t' Hi) as Hpu.
    pose proof (tally_insert has_returned tasks i _ t' Hi) as Hrt.
    cbn in Hpu, Hrt.
    assert (Hu' : tally past_update (<[i := t']> tasks) = tally past_update tasks) by lia.
    assert (Hr' : tally has_returned (<[i := t']> tasks) = tally has_returned tasks) by lia.
    rewrite Hu', Hr'. repeat split; eauto.
    apply Forall_insert; [exact Hall|]. subst t'. cbn.
    repeat split; auto. exists (S k). split; [lia|]. rewrite Hbal. lia.
  - destruct Ht as (-> & -> & Hty & j & Hj & ->). cbn [step].
    unfold update_balance. cbn [update_fault no_faults fst snd].
    match goal with |- context [<[i := ?new]> tasks] => set (t' := new) end.
    pose proof (tally_insert past_update tasks i _ t' Hi) as Hpu.
    pose proof (tally_insert has_returned tasks i _ t' Hi) as Hrt.
    cbn in Hpu, Hrt.
    assert (Hu' : tally past_update (<[i := t']> tasks) = S (tally past_update tasks)) by lia.
    assert (Hr' : tally has_returned (<[i := t']> tasks) = tally has_returned tasks) by lia.
    rewrite Hu', Hr'. repeat split.
    + apply Forall_insert; [|subst t'; cbn; auto].
      eapply Forall_impl; [exact Hall|]. intros t. apply depositing_mono. lia.
    + exists j. destruct (stored_balance_Some _ _ _ Hk) as (p & Hp & _).
      split; [apply (stored_balance_with_balance _ _ _ _ Hp)|]. lia.
    + exact Hlen.
  - destruct Ht as (-> & Hty). cbn [step].
    unfold insert_transaction. cbn [insert_fault no_faults]. rewrite Hty.
    change (transaction_type_check "deposit") with true. cbn [fst snd].
    match goal with |- context [<[i := ?new]> tasks] => set (t' := new) end.
    pose proof (tally_insert past_update tasks i _ t' Hi) as Hpu.
    pose proof (tally_insert has_returned tasks i _ t' Hi) as Hrt.
    cbn in Hpu, Hrt.
    assert (Hu' : tally past_update (<[i := t']> tasks) = tally past_update tasks) by lia.
    assert (Hr' : tally has_returned (<[i := t']> tasks) = S (tally has_returned tasks)) by lia.
    rewrite Hu', Hr'. repeat split.
    + apply Forall_insert; [exact Hall|]. subst t'. reflexivity.
    + exists k. repeat split; auto.
    + cbn [transactions]. rewrite length_app. cbn [length]. lia.
  - cbn [step fst snd]. rewrite (list_insert_id _ _ _ Hi). repeat split; eauto.
Qed.

Lemma run_schedule_preserves uid a B0 rows0 schedule :
  forall sys,
    deposits_in_flight uid a B0 rows0 sys ->
    deposits_in_flight uid a B0 rows0 (run_schedule schedule sys).
Proof.
  unfold run_schedule.
  induction schedule as [|i schedule IH]; intros sys Hsys; [exact Hsys|].
  cbn [foldl]. apply IH, step_at_preserves, Hsys.
Qed.

Lemma tally_deposits f uid a pages :
  f = past_update \/ f = has_returned ->
  tally f (deposits uid a pages) = 0%nat.
Proof.
  intros Hf. induction pages as [|pg pages IH]; [reflexivity|].
  unfold tally, deposits in *. cbn [map foldr]. rewrite IH.
  destruct Hf as [-> | ->]; reflexivity.
Qed.

(** Establish: the invariant holds when the calls are made. *)
Lemma deposits_in_flight_start uid a B0 pages db :
  stored_balance uid db = Some B0 ->
  deposits_in_flight uid a B0 (length (transactions db)) (db, deposits uid a pages).
Proof.
  intros HB. unfold deposits_in_flight. cbn [fst snd].
  rewrite !tally_deposits by auto. repeat split.
  - unfold deposits. apply Forall_forall. intros t Ht.
    apply list_elem_of_fmap in Ht as (pg & -> & _). cbn. auto.
  - exists 0%nat. rewrite HB. repeat split; [f_equal; lia|lia|lia].
  - lia.
Qed.

Lemma step_at_length i sys : length (step_at i sys).2 = length sys.2.
Proof.
  unfold step_at. destruct (sys.2 !! i); [|reflexivity].
  cbn [snd]. apply length_insert.
Qed.

Lemma run_schedule_length schedule :
  forall sys, length (run_schedule schedule sys).2 = length sys.2.
Proof.
  unfold run_schedule.
  induction schedule as [|i schedule IH]; intros sys; [reflexivity|].
  cbn [foldl]. rewrite IH. apply step_at_length.
Qed.

Lemma tally_all_succeeded tasks :
  all_succeeded tasks ->
  tally past_update tasks = length tasks /\ tally has_returned tasks = length tasks.
Proof.
  unfold all_succeeded, tally.
  induction 1 as [|t tasks -> _ [IH1 IH2]]; [split; reflexivity|].
  cbn [foldr length past_update has_returned]. rewrite IH1, IH2. split; reflexivity.
Qed.

Lemma deposits_length uid a pages : length (deposits uid a pages) = length pages.
Proof. unfold deposits. apply length_map. Qed.

(** Use: once every call has returned with success. *)
Lemma interleaved_deposits uid a B0 pages db schedule :
  stored_balance uid db = Some B0 ->
  all_succeeded (run_schedule schedule (db, deposits uid a pages)).2 ->
  length (appended db (run_schedule schedule (db, deposits uid a pages)).1)
    = length pages
  /\ exists k : nat,
       stored_balance uid (run_schedule schedule (db, deposits uid a pages)).1
         = Some (B0 + Z.of_nat k * a)
       /\ (k <= length pages)%nat
       /\ (0 < length pages -> 1 <= k)%nat.
Proof.
  intros HB Hall.
  pose proof (run_schedule_preserves uid a B0 _ schedule _
                (deposits_in_flight_start uid a B0 pages db HB))
    as (_ & (k & Hk & Hku & Hk1) & Hlen).
  pose proof (run_schedule_length schedule (db, deposits uid a pages)) as Hn.
  cbn [snd] in Hn. rewrite deposits_length in Hn.
  destruct (tally_all_succeeded _ Hall) as [Hu Hr].
  rewrite Hu, Hn in Hku, Hk1. rewrite Hr, Hn in Hlen. split.
  - unfold appended. rewrite length_drop. lia.
  - exists k. auto.
Qed.

(** A call left alone for its three turns runs as the function does. *)
Lemma alone_handleTransaction props type amount memo env db :
  alone (Called props type amount memo env) db
  = ((handleTransaction props type amount memo env db).1,
     Returned (handleTransaction props type amount memo env db).2).
Proof.
  unfold alone. run_body. cbn [step].
  destruct (user props) as [uid|]; [|reflexivity].
  destruct type; cbn [is_withdraw andb].
  - unfold select_balance.
    destruct (fetch_fault env); [reflexivity|].
    destruct (profiles db !! uid); [|reflexivity].
    cbn [step]. unfold update_balance.
    destruct (update_fault env); [reflexivity|].
    cbn [step]. unfold insert_transaction.
    destruct (insert_fault env); reflexivity.
  - destruct (currentBalance props - amount <? 0); [reflexivity|].
    unfold select_balance.
    destruct (fetch_fault env); [reflexivity|].
    destruct (profiles db !! uid) as [p|]; [|reflexivity].
    destruct (balance p - amount <? 0); [reflexivity|].
    cbn [step]. unfold update_balance.
    destruct (update_fault env); [reflexivity|].
    cbn [step]. unfold insert_transaction.
    destruct (insert_fault env); reflexivity.
Qed.

Lemma run_schedule_app s1 s2 sys :
  run_schedule (s1 ++ s2) sys = run_schedule s2 (run_schedule s1 sys).
Proof. unfold run_schedule. apply foldl_app. Qed.

Lemma step_at_S i db t tasks :
  step_at (S i) (db, t :: tasks)
  = ((step_at i (db, tasks)).1, t :: (step_at i (db, tasks)).2).
Proof.
  unfold step_at. cbn [fst snd].
  change ((t :: tasks) !! S i) with (tasks !! i).
  destruct (tasks !! i); reflexivity.
Qed.

Lemma run_schedule_S schedule :
  forall db t tasks,
    run_schedule (S <$> schedule) (db, t :: tasks)
    = ((run_schedule schedule (db, tasks)).1,
       t :: (run_schedule schedule (db, tasks)).2).
Proof.
  unfold run_schedule.
  induction schedule as [|i schedule IH]; intros db t tasks; [reflexivity|].
  cbn [fmap list_fmap foldl]. rewrite step_at_S.
  destruct (step_at i (db, tasks)) as [db1 tasks1]. cbn [fst snd]. apply IH.
Qed.

Lemma run_schedule_first db t tasks :
  run_schedule [0; 0; 0]%nat (db, t :: tasks)
  = ((alone t db).1, (alone t db).2 :: tasks).
Proof.
  unfold run_schedule, alone, step_at. cbn.
  destruct (step t db) as [db1 t1]. cbn.
  destruct (step t1 db1) as [db2 t2]. cbn.
  destruct (step t2 db2) as [db3 t3]. reflexivity.
Qed.

Lemma one_by_one_S n :
  one_by_one (S n) = [0; 0; 0]%nat ++ (S <$> one_by_one n).
Proof.
  unfold one_by_one. cbn [seq flat_map]. f_equal.
  rewrite <- fmap_S_seq. generalize (seq 0 n). intros l.
  induction l as [|i l IH]; [reflexivity|].
  cbn [fmap list_fmap flat_map app]. cbn [fmap list_fmap] in IH. rewrite IH.
  reflexivity.
Qed.

Lemma one_by_one_deposits uid a pages :
  forall db B0,
    stored_balance uid db = Some B0 ->
    all_succeeded
      (run_schedule (one_by_one (length pages)) (db, deposits uid a pages)).2
    /\ stored_balance uid
         (run_schedule (one_by_one (length pages)) (db, deposits uid a pages)).1
       = Some (B0 + Z.of_nat (length pages) * a)
    /\ exists rows,
         transactions
           (run_schedule (one_by_one (length pages)) (db, deposits uid a pages)).1
         = transactions db ++ rows
         /\ length rows = length pages.
Proof.
  induction pages as [|pg pages IH]; intros db B0 HB.
  - cbn. repeat split; [constructor|rewrite HB; f_equal; lia|].
    exists []. rewrite app_nil_r. auto.
  - cbn [length]. rewrite one_by_one_S, run_schedule_app.
    change (deposits uid a (pg :: pages))
      with (Called {| user := Some uid; currentBalance := pg.1 |} deposit a pg.2
              no_faults :: deposits uid a pages).
    rewrite run_schedule_first, alone_handleTransaction. cbn [fst snd].
    destruct (stored_balance_Some _ _ _ HB) as (p & Hp & Hbal).
    rewrite (handleTransaction_eq _ _ _ _ _ _ _ _ Hp).
    cbn [is_withdraw andb fetch_fault update_fault insert_fault no_faults fst snd].
    rewrite run_schedule_S. cbn [fst snd].
    set (db1 := with_record _ _).
    assert (HB1 : stored_balance uid db1 = Some (B0 + a)).
    { subst db1. rewrite stored_balance_with_record.
      rewrite (stored_balance_with_balance _ _ _ _ Hp). rewrite Hbal. reflexivity. }
    destruct (IH db1 _ HB1) as (Hall & Hfin & rows & Hrows & Hlen).
    repeat split.
    + constructor; [reflexivity|exact Hall].
    + rewrite Hfin. f_equal. lia.
    + eexists (_ :: rows). rewrite Hrows. subst db1. cbn [transactions with_record with_balance].
      rewrite <- app_assoc. split; [reflexivity|]. cbn [length]. lia.
Qed.

(** C9, as amended.  [n] deposits of [a] by one owner, in flight together
    from the balance [B0] and all successful, write exactly [n] rows
    whatever the interleaving, and end at the balance [B0 + k * a] for some
    [k] between 1 and [n]; run one after the other they end at
    [B0 + n * a]. *)
Theorem deposits_in_flight_together uid a B0 pages db :
  stored_balance uid db = Some B0 ->
  (forall schedule,
     all_succeeded (run_schedule schedule (db, deposits uid a pages)).2 ->
     length (appended db (run_schedule schedule (db, deposits uid a pages)).1)
       = length pages
     /\ exists k : nat,
          stored_balance uid (run_schedule schedule (db, deposits uid a pages)).1
            = Some (B0 + Z.of_nat k * a)
          /\ (k <= length pages)%nat
          /\ (0 < length pages -> 1 <= k)%nat)
  /\ all_succeeded
       (run_schedule (one_by_one (length pages)) (db, deposits uid a pages)).2
  /\ concurrency_safe uid a B0 pages db (one_by_one (length pages)).
Proof.
  intros HB. split; [|split].
  - intros schedule. apply interleaved_deposits, HB.
  - apply (one_by_one_deposits uid a pages db B0 HB).
  - intros _ _.
    destruct (one_by_one_deposits uid a pages db B0 HB)
      as (_ & Hfin & rows & Hrows & Hlen).
    split; [exact Hfin|]. rewrite (appended_app _ _ _ Hrows). exact Hlen.
Qed.

(** Two deposits of 50.00 on the balance 0.00, each reading before the
    other writes: two rows are written. *)
Lemma deposits_in_flight_together_witness :
  stored_balance "u1" fresh_bank = Some 0
  /\ length
       (appended fresh_bank
          (run_schedule both_read_first
             (fresh_bank, deposits "u1" 5000 two_pages)).1)
     = 2%nat.
Proof.
  split; [reflexivity|].
  apply (proj1 (deposits_in_flight_together "u1" 5000 0 two_pages fresh_bank
                  eq_refl) both_read_first).
  vm_compute. repeat constructor.
Defined.

(** C9, as stated, fails: two deposits of 50.00 on the balance 0.00 both
    read 0.00 and both write 50.00; both succeed, two rows are written and
    the balance ends at 50.00, not 100.00. *)
Lemma lost_update_between_two_deposits :
  ~ concurrency_safe "u1" 5000 0 two_pages fresh_bank both_read_first.
Proof.
  intros H. destruct (H eq_refl) as [Hb _].
  - vm_compute. repeat constructor.
  - vm_compute in Hb. discriminate Hb.
Qed.

End Interleaving.

(** * More of the program *)

(** ** What [handleTransaction] writes, and where *)

Section MoreOfHandleTransaction.
Import BankingOperations.

(** A run that ends in success was made by a signed-in user who has a
    profile row, and its store is the starting store with the balance
    moved and the row of the transaction appended. *)
Lemma handleTransaction_Success props type amount memo env db :
  (handleTransaction props type amount memo env db).2 = Success ->
  exists uid p,
    user props = Some uid /\ profiles db !! uid = Some p
    /\ env = no_faults
    /\ (handleTransaction props type amount memo env db).1
       = with_record (record_of uid type amount memo (balance p))
           (with_balance uid (balance p + delta type amount) db).
Proof.
  destruct props as [[uid|] held]; [|discriminate].
  destruct (profiles db !! uid) as [p|] eqn:Hp.
  - rewrite (handleTransaction_eq _ _ _ _ _ _ _ _ Hp).
    destruct (is_withdraw type && (held - amount <? 0)); [discriminate|].
    destruct env as [[e1|] [e2|] [e3|]]; cbn [fetch_fault update_fault insert_fault];
      try discriminate;
      destruct (is_withdraw type && (balance p - amount <? 0)); try discriminate.
    intros _. exists uid, p. repeat split. exact Hp.
  - run_body. cbn [user currentBalance]. 
    destruct (is_withdraw type && _); [discriminate|].
    rewrite Hp. destruct (fetch_fault env); discriminate.
Qed.

(** Where the profiles can differ after a run: nowhere, or at the balance
    of the signed-in user. *)
Lemma handleTransaction_profiles props type amount memo env db :
  profiles (handleTransaction props type amount memo env db).1 = profiles db
  \/ exists uid b,
       user props = Some uid
       /\ profiles (handleTransaction props type amount memo env db).1
          = alter (set_balance b) uid (profiles db).
Proof.
  destruct props as [[uid|] held]; [|left; reflexivity].
  destruct (profiles db !! uid) as [p|] eqn:Hp.
  - rewrite (handleTransaction_eq _ _ _ _ _ _ _ _ Hp).
    destruct (is_withdraw type && (held - amount <? 0)); [left; reflexivity|].
    destruct (fetch_fault env); [left; reflexivity|].
    destruct (is_withdraw type && (balance p - amount <? 0)); [left; reflexivity|].
    destruct (update_fault env); [left; reflexivity|].
    right. exists uid, (balance p + delta type amount). split; [reflexivity|].
    destruct (insert_fault env); reflexivity.
  - left. run_body. cbn [user currentBalance].
    destruct (is_withdraw type && _); [reflexivity|].
    rewrite Hp. destruct (fetch_fault env); reflexivity.
Qed.

(** X1.  [handleTransaction] changes nothing of the profiles but the
    balance of the signed-in user: every row keeps its name, phone and
    account type, and the rows of the other users are as they were. *)
Theorem handleTransaction_changes_one_balance props type amount memo env db other :
  details <$> profiles (handleTransaction props type amount memo env db).1 !! other
    = details <$> profiles db !! other
  /\ (user props <> Some other ->
      profiles (handleTransaction props type amount memo env db).1 !! other
        = profiles db !! other).
Proof.
  destruct (handleTransaction_profiles props type amount memo env db)
    as [-> | (uid & b & Hu & ->)]; [split; reflexivity|].
  split.
  - rewrite lookup_alter. case_decide; [|reflexivity]. subst other.
    destruct (profiles db !! uid); reflexivity.
  - intros Hother. rewrite lookup_alter_ne; [reflexivity|]. congruence.
Qed.

Lemma handleTransaction_changes_one_balance_witness :
  "u2" <> "u1"
  /\ profiles
       (handleTransaction {| user := Some "u1"; currentBalance := 100000 |}
          deposit 50000 "" no_faults bank).1 !! "u2"
     = profiles bank !! "u2".
Proof.
  split; [discriminate|].
  apply (handleTransaction_changes_one_balance
           {| user := Some "u1"; currentBalance := 100000 |}
           deposit 50000 "" no_faults bank "u2").
  discriminate.
Defined.

(** X2.  A call of [handleTransaction] that ends in success has appended
    exactly one row: it carries the id of the signed-in user and the amount
    submitted, and its [balance_after] is the balance read plus or minus
    the amount, which is the balance the store holds after the call. *)
Theorem handleTransaction_success_row props type submitted memo env db :
  (handleTransaction props type submitted memo env db).2 = Success ->
  exists uid b row,
    user props = Some uid
    /\ stored_balance uid db = Some b
    /\ transactions (handleTransaction props type submitted memo env db).1
       = transactions db ++ [row]
    /\ user_id row = uid
    /\ amount row = submitted
    /\ balance_after row = b + delta type submitted
    /\ stored_balance uid (handleTransaction props type submitted memo env db).1
       = Some (balance_after row).
Proof.
  intros Hs. destruct (handleTransaction_Success _ _ _ _ _ _ Hs)
    as (uid & p & Hu & Hp & _ & ->).
  exists uid, (balance p), (record_of uid type submitted memo (balance p)).
  repeat split; auto.
  - unfold stored_balance. rewrite Hp. reflexivity.
  - rewrite stored_balance_with_record. apply (stored_balance_with_balance _ _ _ _ Hp).
Qed.

Lemma handleTransaction_success_row_witness :
  exists row,
    transactions
      (handleTransaction {| user := Some "u1"; currentBalance := 0 |}
         deposit 50000 "salary" no_faults bank).1 = [row]
    /\ balance_after row = 150000.
Proof.
  destruct (handleTransaction_success_row {| user := Some "u1"; currentBalance := 0 |}
              deposit 50000 "salary" no_faults bank eq_refl)
    as (uid & b & row & Hu & Hb & Ht & _ & _ & Hba & _).
  exists row. split; [exact Ht|].
  cbn in Hu. injection Hu as <-. vm_compute in Hb. injection Hb as <-. exact Hba.
Defined.

(** X3.  [handleTransaction] writes nothing and does not succeed when no
    user is signed in, when the user has no profile row, when the fetch of
    the balance fails, or when a withdrawal exceeds the held balance. *)
Theorem handleTransaction_writes_nothing props type amount memo env db :
  user props = None
  \/ (exists uid, user props = Some uid /\ profiles db !! uid = None)
  \/ fetch_fault env <> None
  \/ (type = withdraw /\ currentBalance props < amount) ->
  (handleTransaction props type amount memo env db).1 = db
  /\ (handleTransaction props type amount memo env db).2 <> Success.
Proof.
  intros H. run_body.
  destruct (user props) as [uid|] eqn:Hu; [|split; [reflexivity|discriminate]].
  destruct (is_withdraw type && _) eqn:Hpre; [split; [reflexivity|discriminate]|].
  destruct H as [H | [(uid' & [= <-] & Hp) | [Hf | [-> Hlt]]]].
  - discriminate H.
  - rewrite Hp. destruct (fetch_fault env); split; try reflexivity; discriminate.
  - destruct (fetch_fault env); [split; [reflexivity|discriminate]|congruence].
  - cbn in Hpre. apply Z.ltb_ge in Hpre. lia.
Qed.

(** A user without a profile row is answered the error of [.single()]. *)
Lemma handleTransaction_writes_nothing_witness :
  handleTransaction {| user := Some "u2"; currentBalance := 0 |}
    deposit 50000 "" no_faults bank
  = (bank, caught no_rows).
Proof.
  pose proof (handleTransaction_writes_nothing
                {| user := Some "u2"; currentBalance := 0 |}
                deposit 50000 "" no_faults bank
                (or_intror (or_introl (ex_intro _ "u2" (conj eq_refl eq_refl)))))
    as [H _].
  apply injective_projections; [exact H|reflexivity].
Defined.

End MoreOfHandleTransaction.

(** ** The two submit handlers *)

Section Submits.
Import BankingOperations.

Lemma faults_none env :
  fetch_fault env = None -> update_fault env = None -> insert_fault env = None ->
  env = no_faults.
Proof. destruct env; cbn; intros -> -> ->; reflexivity. Qed.

(** X4.  For a signed-in user with a profile row and a deposit whose
    amount and resulting balance the [DECIMAL(12,2)] columns can hold, the
    deposit succeeds exactly when its amount is positive and no store call
    fails, and then the stored balance has grown by the amount; an amount
    that is not positive is the only reason for the 'Invalid Amount' toast;
    a deposit is never refused for insufficient funds, and the balance the
    page holds plays no part in it. *)
Theorem deposit_outcome uid held submitted memo env db b :
  stored_balance uid db = Some b ->
  fits_decimal_12_2 submitted = true ->
  fits_decimal_12_2 (b + submitted) = true ->
  ((handleDepositSubmit {| user := Some uid; currentBalance := held |}
      submitted memo env db).2 = Success
   <-> 0 < submitted /\ env = no_faults)
  /\ ((handleDepositSubmit {| user := Some uid; currentBalance := held |}
         submitted memo env db).2 = Success ->
      stored_balance uid
        (handleDepositSubmit {| user := Some uid; currentBalance := held |}
           submitted memo env db).1 = Some (b + submitted))
  /\ ((handleDepositSubmit {| user := Some uid; currentBalance := held |}
         submitted memo env db).2 = InvalidAmount
      <-> submitted <= 0)
  /\ (handleDepositSubmit {| user := Some uid; currentBalance := held |}
        submitted memo env db).2 <> InsufficientFunds
  /\ forall held',
       handleDepositSubmit {| user := Some uid; currentBalance := held' |}
         submitted memo env db
       = handleDepositSubmit {| user := Some uid; currentBalance := held |}
           submitted memo env db.
Proof.
  intros Hb _ _. destruct (stored_balance_Some _ _ _ Hb) as (p & Hp & <-).
  unfold handleDepositSubmit.
  destruct (Z.leb_spec submitted 0) as [Ha|Ha]; cbn [fst snd].
  { repeat split; try discriminate; try lia; auto. }
  split; [|split; [|split; [|split]]].
  - rewrite (handleTransaction_eq _ _ _ _ _ _ _ _ Hp). cbn [is_withdraw andb].
    destruct (fetch_fault env) eqn:Hf; cbn [snd];
      [split; [discriminate|intros [_ ->]; discriminate]|].
    destruct (update_fault env) eqn:Hu; cbn [snd];
      [split; [discriminate|intros [_ ->]; discriminate]|].
    destruct (insert_fault env) eqn:Hi; cbn [snd];
      [split; [discriminate|intros [_ ->]; discriminate]|].
    split; [intros _; split; [lia|apply faults_none; assumption]|reflexivity].
  - apply handleTransaction_rereads. exact Hb.
  - rewrite (handleTransaction_eq _ _ _ _ _ _ _ _ Hp). cbn [is_withdraw andb].
    split; [|lia].
    destruct (fetch_fault env), (update_fault env), (insert_fault env);
      discriminate.
  - rewrite (handleTransaction_eq _ _ _ _ _ _ _ _ Hp). cbn [is_withdraw andb].
    destruct (fetch_fault env), (update_fault env), (insert_fault env);
      discriminate.
  - intros held'. rewrite !(handleTransaction_eq _ _ _ _ _ _ _ _ Hp). reflexivity.
Qed.

(** A deposit of 500.00 from a page that holds a stale 0.00. *)
Lemma deposit_outcome_witness :
  stored_balance "u1" bank = Some 100000
  /\ stored_balance "u1"
       (handleDepositSubmit {| user := Some "u1"; currentBalance := 0 |}
          50000 "" no_faults bank).1 = Some 150000.
Proof.
  split; [reflexivity|].
  apply (proj1 (proj2 (deposit_outcome "u1" 0 50000 "" no_faults bank 100000
                         eq_refl eq_refl eq_refl))).
  reflexivity.
Defined.

(** X5 at work: an amount of 0.00 and an amount of -5.00, one in each form. *)
Lemma submit_refuses_nonpositive_witness :
  handleDepositSubmit {| user := Some "u1"; currentBalance := 100000 |}
    0 "" no_faults bank = (bank, InvalidAmount)
  /\ handleWithdrawSubmit {| user := Some "u1"; currentBalance := 100000 |}
       (-500) "" no_faults bank = (bank, InvalidAmount).
Proof.
  split.
  - apply (submit_refuses_nonpositive
             {| user := Some "u1"; currentBalance := 100000 |} 0 "" no_faults bank).
    lia.
  - apply (submit_refuses_nonpositive
             {| user := Some "u1"; currentBalance := 100000 |} (-500) ""
             no_faults bank).
    lia.
Defined.

(** X6 at work: a withdrawal of the whole balance leaves 0.00. *)
Lemma submit_keeps_balance_nonnegative_witness :
  stored_balance "u1" bank = Some 100000
  /\ 0 <= 100000
  /\ stored_balance "u1"
       (handleWithdrawSubmit {| user := Some "u1"; currentBalance := 100000 |}
          100000 "" no_faults bank).1 = Some 0
  /\ 0 <= 0.
Proof.
  split; [reflexivity|]. split; [lia|]. split; [reflexivity|].
  apply (proj2 (submit_keeps_balance_nonnegative "u1" 100000 100000 ""
                  no_faults bank 100000 0 eq_refl ltac:(lia))).
  reflexivity.
Defined.

End Submits.

(** ** A session on the Dashboard that hosts BankingOperations *)

Section HostSession.
Import BankingOperations DashboardHost.

(** A successful fetch puts the page in step with the store; a failed one
    leaves the profile it kept. *)
Lemma fetchProfile_in_sync uid st db b :
  stored_balance uid db = Some b ->
  in_sync uid (fetchProfile uid None st db).1 db.
Proof.
  intros Hb. destruct (stored_balance_Some _ _ _ Hb) as (p & Hp & <-).
  unfold fetchProfile, select_profile. rewrite Hp. cbn [fst].
  exists p. repeat split. exact Hb.
Qed.

(** X7.  On the Dashboard that hosts BankingOperations, when the page
    shows the stored balance, no store call fails and, for a deposit, the
    amount and the resulting balance are values the [DECIMAL(12,2)]
    columns can hold, a submit succeeds exactly when the amount is positive
    and, for a withdrawal, within the balance; a success moves the stored
    balance by the amount and the page again shows the stored balance; any
    other submit leaves store and page as they were, with 'Invalid Amount'
    for an amount that is not positive and 'Insufficient Funds' for a
    withdrawal beyond the balance. *)
Theorem host_session_step uid st type submitted memo db b :
  in_sync uid st db ->
  stored_balance uid db = Some b ->
  (type = deposit ->
   fits_decimal_12_2 submitted = true
   /\ fits_decimal_12_2 (b + submitted) = true) ->
  let r := submit uid st type submitted memo no_faults None db in
  (r.2.2 = Success <-> 0 < submitted /\ (type = withdraw -> submitted <= b))
  /\ (r.2.2 = Success ->
      stored_balance uid r.1 = Some (b + delta type submitted)
      /\ in_sync uid r.2.1 r.1)
  /\ (r.2.2 <> Success -> r.1 = db /\ r.2.1 = st)
  /\ (r.2.2 = InvalidAmount <-> submitted <= 0)
  /\ (r.2.2 = InsufficientFunds <->
      0 < submitted /\ type = withdraw /\ b < submitted).
Proof.
  intros (kept & Hk & Hl & Hs) Hb _ r.
  rewrite Hb in Hs. injection Hs as Hs.
  destruct (stored_balance_Some _ _ _ Hb) as (p & Hp & Hbal).
  subst r. unfold submit, banking_props. rewrite Hl, Hk.
  destruct type; cbn [fst snd].
  - unfold handleDepositSubmit.
    destruct (Z.leb_spec submitted 0) as [Ha|Ha]; cbn [fst snd];
      [settle_outcome|].
    rewrite (handleTransaction_eq _ _ _ _ _ _ _ _ Hp).
    cbn [is_withdraw andb fetch_fault update_fault insert_fault no_faults fst snd].
    assert (Hnew : stored_balance uid
                     (with_record (record_of uid deposit submitted memo (balance p))
                        (with_balance uid (balance p + delta deposit submitted) db))
                   = Some (b + delta deposit submitted)).
    { rewrite stored_balance_with_record,
        (stored_balance_with_balance _ _ _ _ Hp). rewrite Hbal. reflexivity. }
    pose proof (fetchProfile_in_sync uid st _ _ Hnew) as Hsync.
    settle_outcome.
  - unfold handleWithdrawSubmit. cbn [currentBalance].
    destruct (Z.leb_spec submitted 0) as [Ha|Ha]; cbn [fst snd];
      [settle_outcome|].
    destruct (Z.gtb_spec submitted (balance kept)) as [Hg|Hg]; cbn [fst snd];
      [settle_outcome|].
    rewrite (handleTransaction_eq _ _ _ _ _ _ _ _ Hp).
    cbn [is_withdraw andb].
    destruct (Z.ltb_spec (balance kept - submitted) 0) as [Hh|Hh]; [lia|].
    cbn [fetch_fault no_faults].
    destruct (Z.ltb_spec (balance p - submitted) 0) as [Hq|Hq]; [lia|].
    cbn [update_fault insert_fault no_faults fst snd].
    assert (Hnew : stored_balance uid
                     (with_record (record_of uid withdraw submitted memo (balance p))
                        (with_balance uid (balance p + delta withdraw submitted) db))
                   = Some (b + delta withdraw submitted)).
    { rewrite stored_balance_with_record,
        (stored_balance_with_balance _ _ _ _ Hp). rewrite Hbal. reflexivity. }
    pose proof (fetchProfile_in_sync uid st _ _ Hnew) as Hsync.
    settle_outcome.
Qed.

(** A deposit of 500.00 onto 1000.00 on a page in step with the store. *)
Lemma host_session_step_witness :
  in_sync "u1" {| profile := Some asha; profileLoading := false |} bank
  /\ (submit "u1" {| profile := Some asha; profileLoading := false |}
        deposit 50000 "" no_faults None bank).2.2 = Success.
Proof.
  assert (Hsync : in_sync "u1" {| profile := Some asha; profileLoading := false |}
                    bank).
  { exists asha. repeat split. }
  split; [exact Hsync|].
  apply (proj1 (host_session_step "u1" _ deposit 50000 "" bank 100000
                  Hsync eq_refl ltac:(intros _; split; reflexivity))).
  split; [lia|discriminate].
Defined.

End HostSession.

(** ** The Dashboard page with its own forms, in one session *)

Section DashboardSession.

Lemma dashboard_stored_after uid b row db p :
  profiles db !! uid = Some p ->
  stored_balance uid (with_record row (with_balance uid b db)) = Some b.
Proof.
  intros Hp. rewrite stored_balance_with_record.
  apply (stored_balance_with_balance _ _ _ _ Hp).
Qed.

(** X8.  From a Dashboard page that holds the stored balance, and with no
    record insert failed, a form that ends in success has moved the stored
    balance by exactly the amount of its field (a withdrawal only of an
    amount within the balance); a form that ends otherwise has left the
    store and the page as they were. *)
Theorem dashboard_forms_from_a_page_in_step uid st env db b :
  dashboard_in_sync uid st db ->
  stored_balance uid db = Some b ->
  insert_fault env = None ->
  (((Dashboard.handleDeposit uid st env db).2.2 = Success ->
    exists a, Dashboard.depositAmount st = Some a
              /\ stored_balance uid (Dashboard.handleDeposit uid st env db).1
                 = Some (b + a))
   /\ ((Dashboard.handleDeposit uid st env db).2.2 <> Success ->
       Dashboard.handleDeposit uid st env db
       = (db, (st, (Dashboard.handleDeposit uid st env db).2.2))))
  /\ (((Dashboard.handleWithdraw uid st env db).2.2 = Success ->
       exists a, Dashboard.withdrawAmount st = Some a /\ a <= b
                 /\ stored_balance uid (Dashboard.handleWithdraw uid st env db).1
                    = Some (b - a))
      /\ ((Dashboard.handleWithdraw uid st env db).2.2 <> Success ->
          Dashboard.handleWithdraw uid st env db
          = (db, (st, (Dashboard.handleWithdraw uid st env db).2.2)))).
Proof.
  intros (kept & Hk & Hs) Hb Hi.
  rewrite Hb in Hs. injection Hs as Hs.
  destruct (stored_balance_Some _ _ _ Hb) as (p & Hp & Hbal).
  split.
  - destruct (Dashboard.depositAmount st) as [a|] eqn:Ha;
      [|unfold Dashboard.handleDeposit; rewrite Hk, Ha; cbn [fst snd];
        settle_outcome].
    rewrite (handleDeposit_eq _ _ _ _ _ _ Hk Ha), Hi.
    destruct (update_fault env); cbn [fst snd]; [settle_outcome|].
    split.
    + intros _. exists a. split; [reflexivity|].
      rewrite (dashboard_stored_after _ _ _ _ _ Hp). congruence.
    + intros H. contradiction H. reflexivity.
  - destruct (Dashboard.withdrawAmount st) as [a|] eqn:Ha;
      [|unfold Dashboard.handleWithdraw; rewrite Hk, Ha; cbn [fst snd];
        settle_outcome].
    rewrite (handleWithdraw_eq _ _ _ _ _ _ Hk Ha), Hi.
    destruct (Z.gtb_spec a (balance kept)) as [Hg|Hg]; cbn [fst snd];
      [settle_outcome|].
    destruct (update_fault env); cbn [fst snd]; [settle_outcome|].
    split.
    + intros _. exists a. split; [reflexivity|]. split; [lia|].
      rewrite (dashboard_stored_after _ _ _ _ _ Hp). congruence.
    + intros H. contradiction H. reflexivity.
Qed.

(** A withdrawal of 300.00 from a page that holds the stored 1000.00. *)
Lemma dashboard_forms_from_a_page_in_step_witness :
  dashboard_in_sync "u1" (dashboard_page asha (Some 30000)) bank
  /\ exists a,
       Dashboard.withdrawAmount (dashboard_page asha (Some 30000)) = Some a
       /\ a <= 100000
       /\ stored_balance "u1"
            (Dashboard.handleWithdraw "u1" (dashboard_page asha (Some 30000))
               no_faults bank).1 = Some (100000 - a).
Proof.
  assert (Hsync : dashboard_in_sync "u1" (dashboard_page asha (Some 30000)) bank).
  { exists asha. split; reflexivity. }
  split; [exact Hsync|].
  apply (proj1 (proj2 (dashboard_forms_from_a_page_in_step "u1" _ no_faults bank
                         100000 Hsync eq_refl eq_refl))).
  reflexivity.
Defined.

(** X9.  On the Dashboard page with its own forms, submitting again a
    deposit whose record insert failed does not count it twice: the page
    still holds the balance it fetched and the field still holds the
    amount, so the second run stores that balance plus the amount once
    more, the same value, and writes the one row.  The amount is one the
    form submits, and amount and balance are values the columns hold. *)
Theorem dashboard_deposit_retry uid st db b a e :
  dashboard_in_sync uid st db ->
  stored_balance uid db = Some b ->
  Dashboard.depositAmount st = Some a ->
  0 < a ->
  fits_decimal_12_2 a = true ->
  fits_decimal_12_2 (b + a) = true ->
  let failed :=
    Dashboard.handleDeposit uid st
      {| fetch_fault := None; update_fault := None; insert_fault := Some e |} db in
  let again := Dashboard.handleDeposit uid failed.2.1 no_faults failed.1 in
  failed.2 = (st, Failed e)
  /\ stored_balance uid failed.1 = Some (b + a)
  /\ transactions failed.1 = transactions db
  /\ again.2.2 = Success
  /\ stored_balance uid again.1 = Some (b + a)
  /\ (exists row, transactions again.1 = transactions db ++ [row]
                  /\ amount row = a /\ balance_after row = b + a).
Proof.
  intros (kept & Hk & Hs) Hb Ha _ _ _ failed again.
  rewrite Hb in Hs. injection Hs as Hs.
  destruct (stored_balance_Some _ _ _ Hb) as (p & Hp & Hbal).
  subst again failed b.
  rewrite (handleDeposit_eq _ _ _ _ _ _ Hk Ha).
  cbn [fetch_fault update_fault insert_fault fst snd].
  rewrite (handleDeposit_eq _ _ _ _ _ _ Hk Ha).
  cbn [fetch_fault update_fault insert_fault no_faults fst snd].
  assert (Hp1 : profiles (with_balance uid (balance kept + a) db) !! uid
                = Some (set_balance (balance kept + a) p)).
  { unfold with_balance. cbn [profiles]. rewrite lookup_alter_eq, Hp. reflexivity. }
  repeat split.
  - apply (stored_balance_with_balance _ _ _ _ Hp).
  - apply (dashboard_stored_after _ _ _ _ _ Hp1).
  - eexists. repeat split.
Qed.

Lemma dashboard_deposit_retry_witness :
  stored_balance "u1"
    (Dashboard.handleDeposit "u1"
       (Dashboard.handleDeposit "u1" (dashboard_page asha (Some 50000))
          insert_fails bank).2.1
       no_faults
       (Dashboard.handleDeposit "u1" (dashboard_page asha (Some 50000))
          insert_fails bank).1).1
  = Some 150000.
Proof.
  assert (Hsync : dashboard_in_sync "u1" (dashboard_page asha (Some 50000)) bank).
  { exists asha. split; reflexivity. }
  apply (dashboard_deposit_retry "u1" _ bank 100000 50000 "timeout"
           Hsync eq_refl eq_refl ltac:(lia) eq_refl eq_refl).
Defined.

End DashboardSession.

(** ** Submitting again after a failed insert, through BankingOperations *)

Section Retry.
Import BankingOperations.



End Retry.

(** ** What the Dashboard page's own forms write *)

Section DashboardWrites.

(** X11.  [handleWithdraw] of the Dashboard page refuses exactly the
    amounts above the balance the page holds, and then changes nothing;
    whatever the page holds, a balance it stores is not negative, and so is
    the [balance_after] of a row it writes. *)
Theorem dashboard_withdraw_never_overdraws uid st env db :
  ((Dashboard.handleWithdraw uid st env db).2.2 = InsufficientFunds <->
   exists kept a,
     Dashboard.profile st = Some kept /\ Dashboard.withdrawAmount st = Some a
     /\ balance kept < a)
  /\ ((Dashboard.handleWithdraw uid st env db).2.2 = InsufficientFunds ->
      Dashboard.handleWithdraw uid st env db = (db, (st, InsufficientFunds)))
  /\ (forall b',
        stored_balance uid (Dashboard.handleWithdraw uid st env db).1 = Some b' ->
        stored_balance uid db = Some b' \/ 0 <= b')
  /\ (forall row,
        In row (appended db (Dashboard.handleWithdraw uid st env db).1) ->
        0 <= balance_after row).
Proof.
  destruct (Dashboard.profile st) as [kept|] eqn:Hk;
    [|unfold Dashboard.handleWithdraw; rewrite Hk; cbn [fst snd];
      unfold appended; rewrite drop_all;
      repeat split; try discriminate; auto;
      [intros (? & ? & ? & _); discriminate | intros ? []]].
  destruct (Dashboard.withdrawAmount st) as [a|] eqn:Ha;
    [|unfold Dashboard.handleWithdraw; rewrite Hk, Ha; cbn [fst snd];
      unfold appended; rewrite drop_all;
      repeat split; try discriminate; auto;
      [intros (? & ? & _ & ? & _); discriminate | intros ? []]].
  rewrite (handleWithdraw_eq _ _ _ _ _ _ Hk Ha).
  destruct (Z.gtb_spec a (balance kept)) as [Hg|Hg]; cbn [fst snd].
  { unfold appended; rewrite drop_all. repeat split; auto.
    - intros _. exists kept, a. auto.
    - intros ? []. }
  assert (Hno : ~ exists kept0 a0, Some kept = Some kept0 /\ Some a = Some a0
                                   /\ balance kept0 < a0).
  { intros (? & ? & [= <-] & [= <-] & ?). lia. }
  destruct (update_fault env); cbn [fst snd].
  { unfold appended; rewrite drop_all. repeat split; auto; try discriminate.
    - intros H; contradiction.
    - intros ? []. }
  assert (Hst : forall row b',
             stored_balance uid
               (with_record row (with_balance uid (balance kept - a) db)) = Some b' ->
             stored_balance uid db = Some b' \/ 0 <= b').
  { intros row b'. rewrite stored_balance_with_record.
    unfold stored_balance, with_balance. cbn [profiles]. rewrite lookup_alter_eq.
    destruct (profiles db !! uid); [|discriminate]. intros [= <-]. right. lia. }
  destruct (insert_fault env); cbn [fst snd].
  - unfold appended. cbn [transactions with_balance]. rewrite drop_all.
    repeat split; auto; try discriminate.
    + intros H; contradiction.
    + intros b'. apply (Hst {| user_id := uid; amount := 0; transaction_type := "";
                             description := ""; balance_after := 0 |}).
    + intros ? [].
  - unfold appended. cbn [transactions with_record with_balance].
    rewrite drop_app_length.
    repeat split; auto; try discriminate.
    + intros H; contradiction.
    + apply Hst.
    + intros row [<- | []]. cbn. lia.
Qed.

(** The page holds 5000.00, the account 1000.00: a withdrawal of 2000.00
    goes through and leaves a stored balance that is not negative. *)
Lemma dashboard_withdraw_never_overdraws_witness :
  stored_balance "u1"
    (Dashboard.handleWithdraw "u1"
       (dashboard_page (set_balance 500000 asha) (Some 200000)) no_faults bank).1
  = Some 300000
  /\ (stored_balance "u1" bank = Some 300000 \/ 0 <= 300000).
Proof.
  split; [reflexivity|].
  apply (proj1 (proj2 (proj2 (dashboard_withdraw_never_overdraws "u1"
                                (dashboard_page (set_balance 500000 asha)
                                   (Some 200000)) no_faults bank)))).
  reflexivity.
Defined.

(** X12.  When a form of the Dashboard page ends in success, the row it
    wrote is the newest of the table, it carries the user's id, and its
    [balance_after] is, for a user who has a profile row, the balance the
    store now holds, even when the page was out of step before: the
    handler sends the one new balance to both tables. *)
Theorem dashboard_forms_log_agreement uid st env db :
  ((Dashboard.handleDeposit uid st env db).2.2 = Success ->
   exists row,
     last (transactions (Dashboard.handleDeposit uid st env db).1) = Some row
     /\ user_id row = uid
     /\ (is_Some (profiles db !! uid) ->
         stored_balance uid (Dashboard.handleDeposit uid st env db).1
         = Some (balance_after row)))
  /\ ((Dashboard.handleWithdraw uid st env db).2.2 = Success ->
      exists row,
        last (transactions (Dashboard.handleWithdraw uid st env db).1) = Some row
        /\ user_id row = uid
        /\ (is_Some (profiles db !! uid) ->
            stored_balance uid (Dashboard.handleWithdraw uid st env db).1
            = Some (balance_after row))).
Proof.
  split.
  - destruct (Dashboard.profile st) as [kept|] eqn:Hk;
      [|unfold Dashboard.handleDeposit; rewrite Hk; discriminate].
    destruct (Dashboard.depositAmount st) as [a|] eqn:Ha;
      [|unfold Dashboard.handleDeposit; rewrite Hk, Ha; discriminate].
    rewrite (handleDeposit_eq _ _ _ _ _ _ Hk Ha).
    destruct (update_fault env); [discriminate|].
    destruct (insert_fault env); [discriminate|].
    intros _. cbn [fst snd]. eexists.
    split; [apply last_snoc|]. split; [reflexivity|].
    intros [p Hp]. apply (dashboard_stored_after _ _ _ _ _ Hp).
  - destruct (Dashboard.profile st) as [kept|] eqn:Hk;
      [|unfold Dashboard.handleWithdraw; rewrite Hk; discriminate].
    destruct (Dashboard.withdrawAmount st) as [a|] eqn:Ha;
      [|unfold Dashboard.handleWithdraw; rewrite Hk, Ha; discriminate].
    rewrite (handleWithdraw_eq _ _ _ _ _ _ Hk Ha).
    destruct (a >? balance kept); [discriminate|].
    destruct (update_fault env); [discriminate|].
    destruct (insert_fault env); [discriminate|].
    intros _. cbn [fst snd]. eexists.
    split; [apply last_snoc|]. split; [reflexivity|].
    intros [p Hp]. apply (dashboard_stored_after _ _ _ _ _ Hp).
Qed.

(** The page holds 0.00, the account 1000.00: the row of a deposit of 50.00
    and the store agree on 50.00. *)
Lemma dashboard_forms_log_agreement_witness :
  exists row,
    last (transactions
            (Dashboard.handleDeposit "u1"
               (dashboard_page (set_balance 0 asha) (Some 5000)) no_faults bank).1)
    = Some row
    /\ stored_balance "u1"
         (Dashboard.handleDeposit "u1"
            (dashboard_page (set_balance 0 asha) (Some 5000)) no_faults bank).1
       = Some (balance_after row).
Proof.
  destruct (proj1 (dashboard_forms_log_agreement "u1"
                     (dashboard_page (set_balance 0 asha) (Some 5000))
                     no_faults bank) eq_refl)
    as (row & Hlast & _ & Hstored).
  exists row. split; [exact Hlast|]. apply Hstored. exists asha. reflexivity.
Defined.

(** X13.  [fetchProfile] of the Dashboard page replaces the kept profile by
    the stored row, and keeps the page as it is when the fetch fails; a
    deposit made right after a fetch that answered, of an amount the form
    submits, with amount and new balance within what the columns hold and
    no store call failed, stores the stored balance plus the amount,
    whatever the page held before. *)
Theorem dashboard_fetch_then_deposit uid st fault db b a :
  stored_balance uid db = Some b ->
  Dashboard.depositAmount st = Some a ->
  0 < a ->
  fits_decimal_12_2 a = true ->
  fits_decimal_12_2 (b + a) = true ->
  (fault <> None -> Dashboard.fetchProfile uid fault st db = st)
  /\ dashboard_in_sync uid (Dashboard.fetchProfile uid None st db) db
  /\ (Dashboard.handleDeposit uid (Dashboard.fetchProfile uid None st db)
        no_faults db).2.2 = Success
  /\ stored_balance uid
       (Dashboard.handleDeposit uid (Dashboard.fetchProfile uid None st db)
          no_faults db).1 = Some (b + a).
Proof.
  intros Hb Ha _ _ _. destruct (stored_balance_Some _ _ _ Hb) as (p & Hp & <-).
  split; [|split].
  - unfold Dashboard.fetchProfile, select_profile.
    destruct fault; [reflexivity|congruence].
  - unfold Dashboard.fetchProfile, select_profile. rewrite Hp.
    exists p. split; [reflexivity|exact Hb].
  - assert (Hk : Dashboard.profile (Dashboard.fetchProfile uid None st db) = Some p).
    { unfold Dashboard.fetchProfile, select_profile. rewrite Hp. reflexivity. }
    assert (Ha' : Dashboard.depositAmount (Dashboard.fetchProfile uid None st db)
                  = Some a).
    { unfold Dashboard.fetchProfile, select_profile. rewrite Hp. exact Ha. }
    rewrite (handleDeposit_eq _ _ _ _ _ _ Hk Ha').
    cbn [update_fault insert_fault no_faults fst snd].
    split; [reflexivity|]. apply (dashboard_stored_after _ _ _ _ _ Hp).
Qed.

Lemma dashboard_fetch_then_deposit_witness :
  stored_balance "u1"
    (Dashboard.handleDeposit "u1"
       (Dashboard.fetchProfile "u1" None
          (dashboard_page (set_balance 0 asha) (Some 5000)) bank)
       no_faults bank).1
  = Some 105000.
Proof.
  apply (dashboard_fetch_then_deposit "u1"
           (dashboard_page (set_balance 0 asha) (Some 5000)) None bank
           100000 5000 eq_refl eq_refl ltac:(lia) eq_refl eq_refl).
Defined.

End DashboardWrites.

(** ** The Profile settings page: save, read back, cancel *)

Section ProfileSettings.
Import ProfilePage ProfileEditing.

Lemma set_details_own (p : Profile) :
  set_details (name p) (phone p) (account_type p) p = p.
Proof. destruct p; reflexivity. Qed.

Lemma store_same_profiles db :
  {| profiles := profiles db; transactions := transactions db |} = db.
Proof. destruct db; reflexivity. Qed.

(** X14.  For a user with a profile row, a save from the Profile page
    succeeds exactly when the store call is not failed and the form's
    account type is 'savings' or 'current'; it then stores the form's name,
    phone and account type and closes the edit mode; otherwise it shows its
    error toast and changes neither page nor store.  In no case does a save
    touch the balance, the transactions or another user's row. *)
Theorem save_profile_outcome uid st fault db kept p :
  profile st = Some kept ->
  profiles db !! uid = Some p ->
  ((handleSaveProfile uid st fault db).2.2 = Success <->
   fault = None /\ account_type_check (form_account_type (editForm st)) = true)
  /\ ((handleSaveProfile uid st fault db).2.2 = Success ->
      profiles (handleSaveProfile uid st fault db).1 !! uid
      = Some (set_details (form_name (editForm st)) (form_phone (editForm st))
                (form_account_type (editForm st)) p)
      /\ isEditing (handleSaveProfile uid st fault db).2.1 = false)
  /\ ((handleSaveProfile uid st fault db).2.2 <> Success ->
      handleSaveProfile uid st fault db
      = (db, (st, Failed "Failed to update profile")))
  /\ stored_balance uid (handleSaveProfile uid st fault db).1
     = stored_balance uid db
  /\ transactions (handleSaveProfile uid st fault db).1 = transactions db
  /\ forall other, other <> uid ->
       profiles (handleSaveProfile uid st fault db).1 !! other
       = profiles db !! other.
Proof.
  intros Hk Hp. unfold handleSaveProfile, update_details. rewrite Hk.
  destruct fault as [e|]; cbn [fst snd].
  { repeat split; try discriminate; auto. intros [? _]; discriminate. }
  rewrite Hp.
  destruct (account_type_check (form_account_type (editForm st))) eqn:Hc;
    cbn [fst snd profiles transactions].
  - repeat split; auto.
    + apply lookup_insert_eq.
    + intros H; contradiction H; reflexivity.
    + unfold stored_balance. cbn [profiles]. rewrite lookup_insert_eq, Hp. reflexivity.
    + intros other Ho. apply lookup_insert_ne. congruence.
  - repeat split; try discriminate; auto. intros [_ ?]; discriminate.
Qed.

(** The page of Asha, who changes her account type to 'current'. *)
Lemma save_profile_outcome_witness :
  (handleSaveProfile "u1" (choose_account_type "current" profile_page) None bank).2.2
  = Success.
Proof.
  apply (proj1 (save_profile_outcome "u1" (choose_account_type "current" profile_page)
                  None bank asha asha eq_refl eq_refl)).
  split; reflexivity.
Defined.

(** X15.  What a successful save stores is what the page reads back: a
    fetch after it fills the form with the very values that were saved and
    keeps the row's balance. *)
Theorem save_then_fetch uid st db kept p :
  profile st = Some kept ->
  profiles db !! uid = Some p ->
  (handleSaveProfile uid st None db).2.2 = Success ->
  editForm (fetchProfile uid None (handleSaveProfile uid st None db).2.1
              (handleSaveProfile uid st None db).1).1
    = editForm st
  /\ profile (fetchProfile uid None (handleSaveProfile uid st None db).2.1
               (handleSaveProfile uid st None db).1).1
     = Some (set_details (form_name (editForm st)) (form_phone (editForm st))
               (form_account_type (editForm st)) p)
  /\ (balance kept = balance p ->
      (fetchProfile uid None (handleSaveProfile uid st None db).2.1
         (handleSaveProfile uid st None db).1).1
      = (handleSaveProfile uid st None db).2.1).
Proof.
  intros Hk Hp. unfold handleSaveProfile, update_details. rewrite Hk, Hp.
  destruct (account_type_check (form_account_type (editForm st)));
    [|discriminate].
  intros _. cbn [fst snd]. unfold fetchProfile, select_profile.
  cbn [profiles]. rewrite lookup_insert_eq. cbn [fst profile editForm isEditing].
  repeat split.
  - destruct (editForm st); reflexivity.
  - intros Hbal. unfold set_details. rewrite Hbal.
    destruct (editForm st); reflexivity.
Qed.

Lemma save_then_fetch_witness :
  editForm
    (fetchProfile "u1" None
       (handleSaveProfile "u1" (choose_account_type "current" profile_page)
          None bank).2.1
       (handleSaveProfile "u1" (choose_account_type "current" profile_page)
          None bank).1).1
  = editForm (choose_account_type "current" profile_page).
Proof.
  apply (save_then_fetch "u1" (choose_account_type "current" profile_page) bank
           asha asha eq_refl eq_refl eq_refl).
Defined.

(** X16.  [handleCancelEdit] throws the edits away: the form shows the kept
    profile again and the edit mode is closed, a second cancel changes
    nothing, and a save made right after a cancel leaves the store as it
    was when the page keeps the stored row. *)
Theorem cancel_discards_edits uid st fault db kept :
  profile st = Some kept ->
  profiles db !! uid = Some kept ->
  editForm (handleCancelEdit st) = form_of kept
  /\ isEditing (handleCancelEdit st) = false
  /\ profile (handleCancelEdit st) = profile st
  /\ handleCancelEdit (handleCancelEdit st) = handleCancelEdit st
  /\ (handleSaveProfile uid (handleCancelEdit st) fault db).1 = db.
Proof.
  intros Hk Hp. unfold handleCancelEdit. rewrite Hk. cbn [editForm isEditing profile].
  repeat split.
  unfold handleSaveProfile, update_details. cbn [profile editForm form_of
    form_name form_phone form_account_type].
  destruct fault; [reflexivity|]. rewrite Hp.
  destruct (account_type_check (account_type kept)); [|reflexivity].
  cbn [fst]. rewrite set_details_own, (insert_id _ _ _ Hp).
  apply store_same_profiles.
Qed.

Lemma cancel_discards_edits_witness :
  form_account_type (editForm (handleCancelEdit (choose_account_type "fixed" profile_page)))
  = "savings"
  /\ (handleSaveProfile "u1" (handleCancelEdit (choose_account_type "fixed" profile_page))
        None bank).1 = bank.
Proof.
  pose proof (cancel_discards_edits "u1" (choose_account_type "fixed" profile_page)
                None bank asha eq_refl eq_refl) as (Hform & _ & _ & _ & Hsave).
  split; [rewrite Hform; reflexivity|exact Hsave].
Defined.

End ProfileSettings.

(** ** Histories *)

Section Histories.
Import BankingOperations TransactionsPage.

Lemma history_snoc uid db db' row :
  transactions db' = transactions db ++ [row] ->
  history uid db'
  = if decide (user_id row = uid) then row :: history uid db else history uid db.
Proof.
  intros Ht. unfold history. rewrite Ht, filter_app, filter_cons, filter_nil.
  case_decide; [apply reverse_snoc|rewrite app_nil_r; reflexivity].
Qed.

(** X17.  The Transactions page fetches the owner's rows, newest first.
    After a call of [handleTransaction] that ended in success the row just
    written heads the history of the signed-in user, above the history from
    before; whatever the end of the call, the history of every other user
    is as it was. *)
Theorem history_after_handleTransaction props type submitted memo env db :
  ((handleTransaction props type submitted memo env db).2 = Success ->
   exists uid row,
     user props = Some uid
     /\ amount row = submitted
     /\ fetchTransactions uid None
          (handleTransaction props type submitted memo env db).1
        = Data (row :: history uid db))
  /\ (forall other,
        user props <> Some other ->
        fetchTransactions other None
          (handleTransaction props type submitted memo env db).1
        = fetchTransactions other None db)
  /\ (forall uid t,
        fetchTransactions uid None db = Data t ->
        forall row, In row t <-> In row (transactions db) /\ user_id row = uid).
Proof.
  split; [|split].
  - intros Hs. destruct (handleTransaction_Success _ _ _ _ _ _ Hs)
      as (uid & p & Hu & Hp & _ & Hdb).
    exists uid, (record_of uid type submitted memo (balance p)).
    split; [exact Hu|]. split; [reflexivity|].
    unfold fetchTransactions. f_equal.
    assert (Ht : transactions (handleTransaction props type submitted memo env db).1
                 = transactions db ++ [record_of uid type submitted memo (balance p)]).
    { rewrite Hdb. reflexivity. }
    pose proof (history_snoc uid db _ _ Ht) as Hh.
    cbn [record_of user_id] in Hh. rewrite decide_True in Hh by reflexivity.
    exact Hh.
  - intros other Ho. unfold fetchTransactions. f_equal.
    destruct (handleTransaction_written props type submitted memo env db)
      as [(Hs & _) | (_ & Hsame)].
    + destruct (handleTransaction_Success _ _ _ _ _ _ Hs)
        as (uid & p & Hu & Hp & _ & Hdb).
      rewrite Hdb. cbn [transactions with_record with_balance].
      rewrite filter_app, filter_cons, filter_nil.
      cbn [record_of user_id]. rewrite decide_False by congruence.
      rewrite app_nil_r. reflexivity.
    + rewrite Hsame. reflexivity.
  - intros uid t [= <-] row.
    rewrite <- !list_elem_of_In, elem_of_reverse, list_elem_of_filter. tauto.
Qed.

Lemma history_after_handleTransaction_witness :
  exists row,
    fetchTransactions "u1" None
      (handleTransaction {| user := Some "u1"; currentBalance := 100000 |}
         withdraw 30000 "" no_faults bank).1
    = Data [row].
Proof.
  destruct (proj1 (history_after_handleTransaction
                     {| user := Some "u1"; currentBalance := 100000 |}
                     withdraw 30000 "" no_faults bank) eq_refl)
    as (uid & row & Hu & _ & Hf).
  cbn in Hu. injection Hu as <-. exists row. exact Hf.
Defined.

Lemma count_by_type (shown : list Transaction) :
  Forall (fun t => transaction_type_check (transaction_type t) = true) shown ->
  totalTransactions shown
  = (totalDeposits shown
     + length (filter (fun t => transaction_type t = "withdraw") shown))%nat.
Proof.
  unfold totalTransactions, totalDeposits.
  induction 1 as [|t shown Ht _ IH]; [reflexivity|].
  rewrite !filter_cons. cbn [length]. rewrite IH.
  unfold transaction_type_check in Ht.
  apply orb_true_iff in Ht as [Ht|Ht]; apply bool_decide_eq_true in Ht;
    rewrite Ht.
  - rewrite decide_True by reflexivity. rewrite decide_False by discriminate.
    cbn [length]. lia.
  - rewrite decide_False by discriminate. rewrite decide_True by reflexivity.
    cbn [length]. lia.
Qed.

(** X18.  On every store the program produces, the Total Transactions card
    is the Total Deposits card plus the number of 'withdraw' rows shown, so
    the three cards add up (deposits plus withdrawals make the total)
    exactly when the history shown holds no withdrawal. *)
Theorem summary_cards_add_up db uid shown :
  Produced db ->
  fetchTransactions uid None db = Data shown ->
  totalTransactions shown
  = (totalDeposits shown
     + length (filter (fun t => transaction_type t = "withdraw") shown))%nat
  /\ ((totalDeposits shown + totalWithdrawals shown)%nat = totalTransactions shown
      <-> Forall (fun t => transaction_type t <> "withdraw") shown).
Proof.
  intros Hdb [= <-].
  assert (Hck : Forall (fun t => transaction_type_check (transaction_type t) = true)
                  (reverse (filter (fun t => user_id t = uid) (transactions db)))).
  { apply Forall_reverse. pose proof (produced_checked db Hdb) as Hall.
    unfold transactions_checked in Hall.
    rewrite Forall_forall in Hall. apply Forall_forall. intros t Ht.
    apply list_elem_of_filter in Ht as [_ Ht]. apply Hall, Ht. }
  set (shown := reverse _) in *.
  split; [apply count_by_type, Hck|].
  rewrite (count_by_type shown Hck), (no_withdrawal_counted shown Hck).
  split.
  - intros Hsum. apply Forall_forall. intros t Ht Hw.
    assert (Hin : t ∈ filter (fun t => transaction_type t = "withdraw") shown).
    { apply list_elem_of_filter. split; assumption. }
    destruct (filter (fun t => transaction_type t = "withdraw") shown);
      [inversion Hin|cbn [length] in Hsum; lia].
  - intros Hnone.
    assert (Hnil : filter (fun t => transaction_type t = "withdraw") shown = []).
    { clear Hck. induction Hnone as [|t l Ht _ IH]; [reflexivity|].
      rewrite filter_cons_False by exact Ht. exact IH. }
    rewrite Hnil. reflexivity.
Qed.

(** After one withdrawal: one transaction, no deposit, and a card of
    withdrawals that does not make up the difference. *)
Lemma summary_cards_add_up_witness :
  totalTransactions
    (reverse (filter (fun t => user_id t = "u1")
       (transactions
          (handleTransaction {| user := Some "u1"; currentBalance := 100000 |}
             withdraw 30000 "" no_faults bank).1)))
  = (totalDeposits
       (reverse (filter (fun t => user_id t = "u1")
          (transactions
             (handleTransaction {| user := Some "u1"; currentBalance := 100000 |}
                withdraw 30000 "" no_faults bank).1)))
     + length
         (filter (fun t => transaction_type t = "withdraw")
            (reverse (filter (fun t => user_id t = "u1")
               (transactions
                  (handleTransaction
                     {| user := Some "u1"; currentBalance := 100000 |}
                     withdraw 30000 "" no_faults bank).1)))))%nat.
Proof.
  apply (summary_cards_add_up
           (handleTransaction {| user := Some "u1"; currentBalance := 100000 |}
              withdraw 30000 "" no_faults bank).1 "u1").
  - apply produced_handleTransaction, produced_start.
  - reflexivity.
Defined.

End Histories.

(** ** The list of recent transactions *)

Section Recent.
Import BankingOperations.

(** X19.  The list of recent transactions never holds more than ten rows:
    it is the first ten of the history the Transactions page shows, so the
    newest rows of the owner; a fetch that fails keeps the list shown.
    After a successful call of [handleTransaction] a new fetch puts the row
    just written first and keeps the nine newest of before. *)
Theorem recent_transactions uid shown db :
  (length (TransactionHistory.fetchTransactions uid None shown db) <= 10)%nat
  /\ TransactionHistory.fetchTransactions uid None shown db = take 10 (history uid db)
  /\ TransactionsPage.fetchTransactions uid None db = Data (history uid db)
  /\ (forall e, TransactionHistory.fetchTransactions uid (Some e) shown db = shown)
  /\ forall held type submitted memo env,
       (handleTransaction {| user := Some uid; currentBalance := held |}
          type submitted memo env db).2 = Success ->
       exists row,
         amount row = submitted
         /\ TransactionHistory.fetchTransactions uid None shown
              (handleTransaction {| user := Some uid; currentBalance := held |}
                 type submitted memo env db).1
            = row :: take 9 (history uid db).
Proof.
  split; [|split; [|split; [|split]]]; try reflexivity.
  - unfold TransactionHistory.fetchTransactions. rewrite length_take. lia.
  - intros held type submitted memo env Hs.
    destruct (handleTransaction_Success _ _ _ _ _ _ Hs)
      as (uid' & p & [= <-] & Hp & _ & Hdb).
    exists (record_of uid type submitted memo (balance p)).
    split; [reflexivity|].
    assert (Ht : transactions
                   (handleTransaction {| user := Some uid; currentBalance := held |}
                      type submitted memo env db).1
                 = transactions db ++ [record_of uid type submitted memo (balance p)]).
    { rewrite Hdb. reflexivity. }
    pose proof (history_snoc uid db _ _ Ht) as Hh.
    cbn [record_of user_id] in Hh. rewrite decide_True in Hh by reflexivity.
    unfold TransactionHistory.fetchTransactions.
    change (reverse (filter (fun t => user_id t = uid) ?l))
      with (history uid {| profiles := ∅; transactions := l |}).
    unfold history in *. cbn [transactions]. rewrite Hh. reflexivity.
Qed.

Lemma recent_transactions_witness :
  exists row,
    TransactionHistory.fetchTransactions "u1" None []
      (handleTransaction {| user := Some "u1"; currentBalance := 100000 |}
         deposit 50000 "" no_faults bank).1
    = row :: take 9 (history "u1" bank).
Proof.
  destruct (proj2 (proj2 (proj2 (proj2 (recent_transactions "u1" [] bank))))
              100000 deposit 50000 "" no_faults eq_refl)
    as (row & _ & Hf).
  exists row. exact Hf.
Defined.

End Recent.

(** ** The Balance column of a history *)

Section RunningBalance.
Import BankingOperations Sequential.

(** A call whose insert is not failed either succeeds, moving the balance
    by its signed amount and writing a row of that amount that carries the
    new balance, or leaves the store as it was. *)
Lemma perform_row uid c db b :
  stored_balance uid db = Some b ->
  insert_fault (env c) = None ->
  (exists row,
     stored_balance uid (perform uid c db).1 = Some (b + signed_amount row)
     /\ transactions (perform uid c db).1 = transactions db ++ [row]
     /\ balance_after row = b + signed_amount row)
  \/ (perform uid c db).1 = db.
Proof.
  intros Hb Hins. destruct (stored_balance_Some _ _ _ Hb) as (p & Hp & <-).
  unfold perform. rewrite (handleTransaction_eq _ _ _ _ _ _ _ _ Hp), Hins.
  destruct (is_withdraw (type c) && (held c - value c <? 0)); [right; reflexivity|].
  destruct (fetch_fault (env c)); [right; reflexivity|].
  destruct (is_withdraw (type c) && (balance p - value c <? 0));
    [right; reflexivity|].
  destruct (update_fault (env c)); [right; reflexivity|].
  left. cbn [fst snd]. eexists. rewrite signed_amount_record_of.
  split; [|split; reflexivity].
  rewrite stored_balance_with_record.
  apply (stored_balance_with_balance _ _ _ _ Hp).
Qed.

Lemma run_running_balances uid calls :
  Forall (fun c => insert_fault (env c) = None) calls ->
  forall db B0, stored_balance uid db = Some B0 ->
    exists rows,
      transactions (run uid calls db).1 = transactions db ++ rows
      /\ balance_after <$> rows = running_balances B0 rows
      /\ stored_balance uid (run uid calls db).1 = Some (replay B0 rows).
Proof.
  induction 1 as [|c rest Hc Hrest IH]; intros db B0 HB.
  - exists []. cbn. rewrite app_nil_r. auto.
  - rewrite run_cons. cbn [fst].
    destruct (perform_row uid c db B0 HB Hc) as [(row & Hb1 & Hrows & Hrow) | Hdb].
    + destruct (IH _ _ Hb1) as (rows & Ht & Hbal & Hfin).
      exists (row :: rows). rewrite Ht, Hrows, <- app_assoc.
      split; [reflexivity|]. cbn [fmap list_fmap running_balances].
      change (list_fmap _ _ balance_after rows) with (balance_after <$> rows).
      rewrite Hrow, Hbal. split; [reflexivity|exact Hfin].
    + rewrite Hdb. apply IH, HB.
Qed.

Lemma last_default_irrelevant {A} (l : list A) x d d' :
  List.last (x :: l) d = List.last (x :: l) d'.
Proof.
  revert x. induction l as [|y l IH]; intros x; [reflexivity|].
  change (List.last (y :: l) d = List.last (y :: l) d'). apply IH.
Qed.

Lemma last_cons_default {A} (l : list A) x d :
  List.last (x :: l) d = List.last l x.
Proof.
  destruct l as [|y l]; [reflexivity|].
  change (List.last (y :: l) d = List.last (y :: l) x).
  apply last_default_irrelevant.
Qed.

(** X20.  In the rows written by calls of [handleTransaction] made one
    after the other, none of whose inserts is failed, the [balance_after]
    of every row is the running total: the starting balance with the
    signed amounts of the rows up to it added; the last of them is the
    balance the store holds. *)
Theorem balance_column_is_running_total uid db calls B0 :
  Forall (fun c => insert_fault (env c) = None) calls ->
  stored_balance uid db = Some B0 ->
  balance_after <$> appended db (run uid calls db).1
  = running_balances B0 (appended db (run uid calls db).1)
  /\ stored_balance uid (run uid calls db).1
     = Some (List.last (balance_after <$> appended db (run uid calls db).1) B0).
Proof.
  intros Hins HB.
  destruct (run_running_balances uid calls Hins db B0 HB) as (rows & Ht & Hbal & Hfin).
  rewrite (appended_app _ _ _ Ht). split; [exact Hbal|].
  rewrite Hfin, Hbal. f_equal. clear.
  revert B0. induction rows as [|t rows IH]; intros B0; [reflexivity|].
  change (replay B0 (t :: rows)) with (replay (B0 + signed_amount t) rows).
  rewrite IH. cbn [running_balances]. symmetry. apply last_cons_default.
Qed.

Lemma balance_column_is_running_total_witness :
  balance_after
    <$> appended bank
          (run "u1" [deposit_500 no_faults; withdraw_2000; withdraw_300 no_faults]
             bank).1
  = [150000; 120000].
Proof.
  rewrite (proj1 (balance_column_is_running_total "u1" bank
                    [deposit_500 no_faults; withdraw_2000; withdraw_300 no_faults]
                    100000 ltac:(repeat constructor) eq_refl)).
  reflexivity.
Defined.

End RunningBalance.

(** ** Calls in flight together: what no interleaving breaks *)

Section InFlight.
Import BankingOperations Concurrent.

Lemma balances_nonnegative_with_balance uid b db :
  0 <= b -> balances_nonnegative db ->
  balances_nonnegative
    {| profiles := alter (set_balance b) uid (profiles db);
       transactions := transactions db |}.
Proof.
  unfold balances_nonnegative. cbn [profiles]. intros Hb Hdb other q.
  rewrite lookup_alter. case_decide.
  - destruct (profiles db !! uid); [|discriminate]. intros [= <-]. exact Hb.
  - apply Hdb.
Qed.

(** A turn of a call keeps every balance, stored or about to be stored,
    from going below zero. *)
Lemma step_keeps_nonnegative t db :
  balances_nonnegative db -> started_by_submit t ->
  balances_nonnegative (step t db).1 /\ started_by_submit (step t db).2.
Proof.
  intros Hdb Ht.
  destruct t as [props type submitted memo env | uid ub row env | row env | o];
    cbn [step started_by_submit] in *.
  - destruct (user props) as [uid|]; [|split; [exact Hdb|exact I]].
    destruct (is_withdraw type && _); [split; [exact Hdb|exact I]|].
    unfold select_balance.
    destruct (fetch_fault env); [split; [exact Hdb|exact I]|].
    destruct (profiles db !! uid) as [p|] eqn:Hp; [|split; [exact Hdb|exact I]].
    pose proof (Hdb uid p Hp) as Hpos. cbn beta in Hpos.
    destruct type; cbn [is_withdraw andb fst snd started_by_submit].
    + split; [exact Hdb|]. specialize (Ht eq_refl). lia.
    + destruct (Z.ltb_spec (balance p - submitted) 0);
        cbn [fst snd started_by_submit]; [split; [exact Hdb|exact I]|].
      split; [exact Hdb|lia].
  - unfold update_balance. destruct (update_fault env); cbn [fst snd];
      [split; [exact Hdb|exact I]|].
    split; [|exact I]. apply balances_nonnegative_with_balance; assumption.
  - unfold insert_transaction. destruct (insert_fault env); cbn [fst snd];
      [split; [exact Hdb|exact I]|].
    destruct (transaction_type_check (transaction_type row)); cbn [fst snd];
      split; try exact I; exact Hdb.
  - split; [exact Hdb|exact I].
Qed.

Lemma step_at_keeps_nonnegative i sys :
  balances_nonnegative sys.1 -> Forall started_by_submit sys.2 ->
  balances_nonnegative (step_at i sys).1 /\ Forall started_by_submit (step_at i sys).2.
Proof.
  intros Hdb Hall. unfold step_at.
  destruct (sys.2 !! i) as [t|] eqn:Hi; [|split; assumption].
  pose proof (proj1 (Forall_lookup _ _) Hall i t Hi) as Ht.
  destruct (step_keeps_nonnegative t sys.1 Hdb Ht) as [Hdb' Ht'].
  cbn [fst snd]. split; [exact Hdb'|]. apply Forall_insert; assumption.
Qed.

(** X21.  However the calls in flight are interleaved and whichever store
    calls fail, deposits of amounts that are not negative and withdrawals
    through [handleTransaction] never take a stored balance below zero:
    when no account is overdrawn before, none is after. *)
Theorem no_interleaving_overdraws schedule :
  forall db tasks,
    balances_nonnegative db ->
    Forall started_by_submit tasks ->
    balances_nonnegative (run_schedule schedule (db, tasks)).1.
Proof.
  assert (H : forall sys,
             balances_nonnegative sys.1 -> Forall started_by_submit sys.2 ->
             balances_nonnegative (run_schedule schedule sys).1
             /\ Forall started_by_submit (run_schedule schedule sys).2).
  { unfold run_schedule.
    induction schedule as [|i schedule IH]; intros sys Hdb Hall; [split; assumption|].
    cbn [foldl]. destruct (step_at_keeps_nonnegative i sys Hdb Hall) as [Hdb' Hall'].
    apply IH; assumption. }
  intros db tasks Hdb Hall. apply (H (db, tasks)); assumption.
Qed.

(** Two withdrawals of 800.00 from 1000.00 that both read before either
    writes: both go through, and the balance ends at 200.00. *)
Lemma no_interleaving_overdraws_witness :
  stored_balance "u1"
    (run_schedule both_read_first
       (bank,
        [Called {| user := Some "u1"; currentBalance := 100000 |} withdraw 80000 ""
           no_faults;
         Called {| user := Some "u1"; currentBalance := 100000 |} withdraw 80000 ""
           no_faults])).1
  = Some 20000
  /\ balances_nonnegative
       (run_schedule both_read_first
          (bank,
           [Called {| user := Some "u1"; currentBalance := 100000 |} withdraw 80000
              "" no_faults;
            Called {| user := Some "u1"; currentBalance := 100000 |} withdraw 80000
              "" no_faults])).1.
Proof.
  split; [reflexivity|].
  apply no_interleaving_overdraws.
  - intros uid p. unfold bank. cbn [profiles].
    rewrite lookup_singleton_Some. intros [_ <-]. cbn. lia.
  - repeat constructor; discriminate.
Defined.

Lemma step_counts_success t db :
  (length (transactions (step t db).1) + succeeded t
   = length (transactions db) + succeeded (step t db).2)%nat.
Proof.
  destruct t as [props type submitted memo env | uid ub row env | row env | o];
    cbn [step].
  - destruct (user props) as [uid|]; [|reflexivity].
    destruct (is_withdraw type && _); [reflexivity|].
    destruct (select_balance uid (fetch_fault env) db); [|reflexivity].
    destruct (is_withdraw type && _); reflexivity.
  - unfold update_balance. destruct (update_fault env); reflexivity.
  - unfold insert_transaction. destruct (insert_fault env); [reflexivity|].
    destruct (transaction_type_check (transaction_type row)); [|reflexivity].
    cbn [fst snd transactions succeeded]. rewrite length_app. cbn [length]. lia.
  - reflexivity.
Qed.

(** X22.  However the calls in flight are interleaved and whichever store
    calls fail, the [transactions] table grows by exactly one row for each
    call that returns with success, and by none otherwise. *)
Theorem one_row_per_success schedule :
  forall db tasks,
    (length (transactions (run_schedule schedule (db, tasks)).1)
     + tally succeeded tasks
     = length (transactions db)
       + tally succeeded (run_schedule schedule (db, tasks)).2)%nat.
Proof.
  unfold run_schedule.
  induction schedule as [|i schedule IH]; intros db tasks; [reflexivity|].
  cbn [foldl].
  change (step_at i (db, tasks))
    with (match tasks !! i with
          | Some t => ((step t db).1, <[i := (step t db).2]> tasks)
          | None => (db, tasks)
          end).
  destruct (tasks !! i) as [t|] eqn:Hi; [|apply IH].
  pose proof (step_counts_success t db) as Hstep.
  pose proof (tally_insert succeeded tasks i t (step t db).2 Hi) as Htally.
  specialize (IH (step t db).1 (<[i := (step t db).2]> tasks)). lia.
Qed.

End InFlight.

(** ** Opening an account *)

Section NewUser.
Import BankingOperations.

Lemma handle_new_user_eq new_id meta db :
  handle_new_user new_id meta db
  = if negb (initial_balance_accepted meta) then
      match meta_initial_balance meta with
      | Some NotNumeric => Error invalid_numeric
      | _ => Error numeric_overflow
      end
    else if negb (account_type_check (default "savings" (meta_account_type meta)))
    then Error check_violation
    else match profiles db !! new_id with
         | Some _ => Error unique_violation
         | None =>
             Data {| profiles :=
                       <[new_id := {| name := default "User" (meta_name meta);
                                      phone := default "" (meta_phone meta);
                                      account_type :=
                                        default "savings" (meta_account_type meta);
                                      balance := opening_balance meta |}]>
                         (profiles db);
                     transactions := transactions db |}
         end.
Proof.
  unfold handle_new_user, insert_profile, initial_balance_accepted,
    opening_balance.
  cbn [account_type balance].
  destruct (meta_initial_balance meta) as [[|v]|]; [reflexivity| |reflexivity].
  destruct (fits_decimal_12_2 v); reflexivity.
Qed.



(** X24.  An account that [handle_new_user] just opened can be used at
    once: the first deposit through BankingOperations of a positive amount
    that the column holds, as it holds the opening balance plus the amount,
    with no store call failed, succeeds and leaves the opening balance plus
    the amount, whatever balance the page holds. *)
Theorem first_deposit_after_sign_up new_id meta db db' held submitted memo :
  handle_new_user new_id meta db = Data db' ->
  0 < submitted ->
  fits_decimal_12_2 submitted = true ->
  fits_decimal_12_2 (opening_balance meta + submitted) = true ->
  (handleDepositSubmit {| user := Some new_id; currentBalance := held |}
     submitted memo no_faults db').2 = Success
  /\ stored_balance new_id
       (handleDepositSubmit {| user := Some new_id; currentBalance := held |}
          submitted memo no_faults db').1
     = Some (opening_balance meta + submitted).
Proof.
  intros Hnew Ha _ _. rewrite handle_new_user_eq in Hnew.
  destruct (initial_balance_accepted meta); cbn [negb] in Hnew;
    [|destruct (meta_initial_balance meta) as [[|?]|]; discriminate Hnew].
  destruct (account_type_check _); cbn [negb] in Hnew; [|discriminate Hnew].
  destruct (profiles db !! new_id); [discriminate Hnew|].
  injection Hnew as <-.
  match goal with |- context [<[new_id := ?row]> _] => set (p := row) end.
  assert (Hp : profiles {| profiles := <[new_id := p]> (profiles db);
                           transactions := transactions db |} !! new_id = Some p)
    by apply lookup_insert_eq.
  unfold handleDepositSubmit.
  destruct (Z.leb_spec submitted 0); [lia|].
  rewrite (handleTransaction_eq _ _ _ _ _ _ _ _ Hp).
  cbn [is_withdraw andb fetch_fault update_fault insert_fault no_faults fst snd].
  split; [reflexivity|]. rewrite stored_balance_with_record.
  apply (stored_balance_with_balance _ _ _ _ Hp).
Qed.

Lemma first_deposit_after_sign_up_witness :
  exists db',
    handle_new_user "u2"
      {| meta_name := Some "Ravi"; meta_phone := None; meta_account_type := None;
         meta_initial_balance := Some (Numeric 10000) |} bank = Data db'
    /\ stored_balance "u2"
         (handleDepositSubmit {| user := Some "u2"; currentBalance := 0 |}
            25000 "" no_faults db').1 = Some 35000.
Proof.
  eexists. split; [reflexivity|].
  apply (first_deposit_after_sign_up "u2"
           {| meta_name := Some "Ravi"; meta_phone := None;
              meta_account_type := None;
              meta_initial_balance := Some (Numeric 10000) |}
           bank _ 0 25000 "" eq_refl ltac:(lia) eq_refl eq_refl).
Defined.

End NewUser.

(** ** The CHECK of [profiles] *)

Section ProfilesChecked.
Import BankingOperations.

Lemma profiles_checked_alter uid b (m : gmap string Profile) :
  map_Forall (fun _ p => account_type_check (account_type p) = true) m ->
  map_Forall (fun _ p => account_type_check (account_type p) = true)
    (alter (set_balance b) uid m).
Proof.
  intros Hm other q. rewrite lookup_alter. case_decide; [|apply Hm].
  destruct (m !! uid) as [p|] eqn:Hp; [|discriminate].
  intros [= <-]. apply (Hm uid p Hp).
Qed.

(** X25.  Every operation of the program keeps the CHECK of [profiles]:
    when each stored account type is 'savings' or 'current' before, each is
    after [handleTransaction], after the two forms of the Dashboard page,
    after a save of the Profile page and after [handle_new_user]. *)
Theorem profiles_stay_checked db :
  profiles_checked db ->
  (forall props type submitted memo env,
     profiles_checked (handleTransaction props type submitted memo env db).1)
  /\ (forall uid st env,
        profiles_checked (Dashboard.handleDeposit uid st env db).1
        /\ profiles_checked (Dashboard.handleWithdraw uid st env db).1)
  /\ (forall uid st fault,
        profiles_checked (ProfilePage.handleSaveProfile uid st fault db).1)
  /\ (forall new_id meta db',
        handle_new_user new_id meta db = Data db' -> profiles_checked db').
Proof.
  intros Hdb. unfold profiles_checked in *. split; [|split; [|split]].
  - intros props type submitted memo env.
    destruct (handleTransaction_profiles props type submitted memo env db)
      as [-> | (uid & b & _ & ->)]; [exact Hdb|].
    apply profiles_checked_alter, Hdb.
  - intros uid st env. split.
    + destruct (Dashboard.profile st) as [kept|] eqn:Hk;
        [|unfold Dashboard.handleDeposit; rewrite Hk; exact Hdb].
      destruct (Dashboard.depositAmount st) as [a|] eqn:Ha;
        [|unfold Dashboard.handleDeposit; rewrite Hk, Ha; exact Hdb].
      rewrite (handleDeposit_eq _ _ _ _ _ _ Hk Ha).
      destruct (update_fault env); [exact Hdb|].
      destruct (insert_fault env); apply profiles_checked_alter, Hdb.
    + destruct (Dashboard.profile st) as [kept|] eqn:Hk;
        [|unfold Dashboard.handleWithdraw; rewrite Hk; exact Hdb].
      destruct (Dashboard.withdrawAmount st) as [a|] eqn:Ha;
        [|unfold Dashboard.handleWithdraw; rewrite Hk, Ha; exact Hdb].
      rewrite (handleWithdraw_eq _ _ _ _ _ _ Hk Ha).
      destruct (a >? balance kept); [exact Hdb|].
      destruct (update_fault env); [exact Hdb|].
      destruct (insert_fault env); apply profiles_checked_alter, Hdb.
  - intros uid st fault. unfold ProfilePage.handleSaveProfile, update_details.
    destruct (ProfilePage.profile st); [|exact Hdb].
    destruct fault; [exact Hdb|].
    destruct (profiles db !! uid); [|exact Hdb].
    destruct (account_type_check _) eqn:Hc; [|exact Hdb].
    cbn [fst profiles]. apply map_Forall_insert_2; [exact Hc|exact Hdb].
  - intros new_id meta db'. rewrite handle_new_user_eq.
    destruct (initial_balance_accepted meta); cbn [negb];
      [|destruct (meta_initial_balance meta) as [[|?]|]; discriminate].
    destruct (account_type_check _) eqn:Hc; cbn [negb]; [|discriminate].
    destruct (profiles db !! new_id); [discriminate|].
    intros [= <-]. cbn [profiles]. apply map_Forall_insert_2; [exact Hc|exact Hdb].
Qed.

Lemma profiles_stay_checked_witness :
  profiles_checked bank
  /\ profiles_checked
       (ProfilePage.handleSaveProfile "u1"
          (ProfilePage.choose_account_type "current" profile_page) None bank).1.
Proof.
  assert (Hbank : profiles_checked bank).
  { intros uid p. unfold bank. cbn [profiles].
    rewrite lookup_singleton_Some. intros [_ <-]. reflexivity. }
  split; [exact Hbank|].
  apply (proj1 (proj2 (proj2 (profiles_stay_checked bank Hbank)))).
Defined.

End ProfilesChecked.

(** ** A page left behind by a failed refetch *)

Section StalePage.
Import BankingOperations DashboardHost.

(** X26.  On the Dashboard that hosts BankingOperations, when the fetch
    that follows a successful deposit fails, the page keeps showing the
    balance from before the deposit; a withdrawal that the new balance
    covers and the old one does not is then refused for insufficient funds
    by the submit handler, before any call to the store. *)
Theorem refused_after_failed_refetch uid st db b a w memo memo' e :
  in_sync uid st db ->
  stored_balance uid db = Some b ->
  0 <= b ->
  0 < a ->
  b < w <= b + a ->
  let d := submit uid st deposit a memo no_faults (Some e) db in
  let r := submit uid d.2.1 withdraw w memo' no_faults None d.1 in
  d.2.2 = Success
  /\ stored_balance uid d.1 = Some (b + a)
  /\ profile d.2.1 = profile st
  /\ r.2.2 = InsufficientFunds
  /\ r.1 = d.1.
Proof.
  intros (kept & Hk & Hl & Hs) Hb Hpos Ha Hw d r.
  rewrite Hb in Hs. injection Hs as Hs.
  destruct (stored_balance_Some _ _ _ Hb) as (p & Hp & Hbal).
  assert (Hd : d = (with_record (record_of uid deposit a memo (balance p))
                      (with_balance uid (balance p + delta deposit a) db),
                    ({| profile := Some kept; profileLoading := false |}, Success))).
  { subst d. unfold submit, banking_props. rewrite Hl, Hk.
    unfold handleDepositSubmit. destruct (Z.leb_spec a 0); [lia|].
    rewrite (handleTransaction_eq _ _ _ _ _ _ _ _ Hp).
    cbn [is_withdraw andb fetch_fault update_fault insert_fault no_faults fst snd].
    unfold fetchProfile, select_profile. rewrite Hk. reflexivity. }
  subst r. rewrite Hd. cbn [fst snd profile].
  split; [reflexivity|]. split.
  { rewrite stored_balance_with_record, (stored_balance_with_balance _ _ _ _ Hp).
    rewrite Hbal. reflexivity. }
  split; [symmetry; exact Hk|].
  unfold submit, banking_props. cbn [profile profileLoading].
  unfold handleWithdrawSubmit. cbn [currentBalance].
  destruct (Z.leb_spec w 0); [lia|].
  destruct (Z.gtb_spec w (balance kept)); [split; reflexivity|lia].
Qed.

(** 1000.00 in the account, a deposit of 500.00 whose refetch fails, then a
    withdrawal of 1200.00. *)
Lemma refused_after_failed_refetch_witness :
  (submit "u1"
     (submit "u1" {| profile := Some asha; profileLoading := false |}
        deposit 50000 "" no_faults (Some "timeout") bank).2.1
     withdraw 120000 "" no_faults None
     (submit "u1" {| profile := Some asha; profileLoading := false |}
        deposit 50000 "" no_faults (Some "timeout") bank).1).2.2
  = InsufficientFunds.
Proof.
  assert (Hsync : in_sync "u1" {| profile := Some asha; profileLoading := false |}
                    bank).
  { exists asha. repeat split. }
  apply (refused_after_failed_refetch "u1" _ bank 100000 50000 120000 "" ""
           "timeout" Hsync eq_refl); lia.
Defined.

End StalePage.

(** ** Amounts that are not positive *)

Section Refusal.
Import BankingOperations.

(** C3.  An amount that is not positive is refused before any call to the
    store, for every user and both kinds.  The submit handlers of
    BankingOperations end in the Invalid Amount toast and return the store
    as it was given.  On the Dashboard page the amount input itself reports
    the value as under its minimum of 0.01, so the submit is held back:
    [handleDeposit] and [handleWithdraw] are not run, the store and the
    page stay as they were. *)
Theorem nonpositive_amount_refused_before_any_write submitted :
  submitted <= 0 ->
  (forall props memo env db,
     handleDepositSubmit props submitted memo env db = (db, InvalidAmount)
     /\ handleWithdrawSubmit props submitted memo env db = (db, InvalidAmount))
  /\ (forall uid st env db,
        Dashboard.depositAmount st = Some submitted ->
        DashboardForms.deposit_input st = DashboardForms.RangeUnderflow
        /\ DashboardForms.submitDeposit uid st env db = (db, (st, Silent)))
  /\ (forall uid st env db,
        Dashboard.withdrawAmount st = Some submitted ->
        DashboardForms.withdraw_input st = DashboardForms.RangeUnderflow
        /\ DashboardForms.submitWithdraw uid st env db = (db, (st, Silent))).
Proof.
  intros Ha. split; [|split].
  - intros props memo env db. unfold handleDepositSubmit, handleWithdrawSubmit.
    destruct (Z.leb_spec submitted 0); [split; reflexivity|lia].
  - intros uid st env db Hf.
    assert (Hv : DashboardForms.deposit_input st = DashboardForms.RangeUnderflow).
    { unfold DashboardForms.deposit_input, DashboardForms.validity. rewrite Hf.
      destruct (Z.ltb_spec submitted 1); [reflexivity|lia]. }
    split; [exact Hv|]. unfold DashboardForms.submitDeposit. rewrite Hv.
    destruct (Dashboard.profile st); reflexivity.
  - intros uid st env db Hf.
    assert (Hv : DashboardForms.withdraw_input st = DashboardForms.RangeUnderflow).
    { unfold DashboardForms.withdraw_input, DashboardForms.validity. rewrite Hf.
      destruct (Z.ltb_spec submitted 1); [reflexivity|lia]. }
    split; [exact Hv|]. unfold DashboardForms.submitWithdraw. rewrite Hv.
    destruct (Dashboard.profile st); reflexivity.
Qed.

(** The amount 0.00 in the deposit field of the Dashboard page, and a
    withdrawal of -15.00 through BankingOperations. *)
Lemma nonpositive_amount_refused_before_any_write_witness :
  DashboardForms.submitDeposit "u1" (dashboard_page asha (Some 0)) no_faults bank
  = (bank, (dashboard_page asha (Some 0), Silent))
  /\ handleWithdrawSubmit {| user := Some "u1"; currentBalance := 100000 |}
       (-1500) "" no_faults bank = (bank, InvalidAmount).
Proof.
  split.
  - apply (proj1 (proj2 (nonpositive_amount_refused_before_any_write 0
                           ltac:(lia)))).
    reflexivity.
  - apply (proj1 (nonpositive_amount_refused_before_any_write (-1500)
                    ltac:(lia))).
Defined.

End Refusal.

(** ** Balances that are not negative *)

Section NeverNegative.
Import BankingOperations.

Lemma handleTransaction_keeps_nonnegative props type submitted memo env db :
  balances_nonnegative db ->
  (type = deposit -> 0 <= submitted) ->
  balances_nonnegative (handleTransaction props type submitted memo env db).1.
Proof.
  intros Hdb Ha.
  pose proof (alone_handleTransaction props type submitted memo env db) as Hrun.
  unfold Concurrent.alone in Hrun.
  destruct (step_keeps_nonnegative
              (Concurrent.Called props type submitted memo env) db Hdb Ha)
    as [H1 T1].
  destruct (Concurrent.step (Concurrent.Called props type submitted memo env) db)
    as [db1 t1].
  cbn [fst snd] in H1, T1.
  destruct (step_keeps_nonnegative t1 db1 H1 T1) as [H2 T2].
  destruct (Concurrent.step t1 db1) as [db2 t2]. cbn [fst snd] in H2, T2.
  destruct (step_keeps_nonnegative t2 db2 H2 T2) as [H3 _].
  rewrite Hrun in H3. exact H3.
Qed.

Lemma with_record_keeps_nonnegative row db :
  balances_nonnegative db -> balances_nonnegative (with_record row db).
Proof.
  intros H. exact H.
Qed.

(** C5.  No operation of the program that moves money makes a stored
    balance negative.  From a store whose balances are not negative, a
    submit of either form of BankingOperations leaves such a store,
    whatever the amount, the balance the page holds and the store calls
    that fail.  So does a submit of either form of the Dashboard page,
    whose amount inputs let through amounts of 0.01 at least, and for a
    withdrawal at most the balance the page holds, while the balance the
    page holds is not negative; the page's balance stays so after a submit
    and after a fetch.  A save of the Profile page leaves the balances
    as they were. *)
Theorem stored_balances_stay_nonnegative db :
  balances_nonnegative db ->
  (forall props submitted memo env,
     balances_nonnegative (handleDepositSubmit props submitted memo env db).1
     /\ balances_nonnegative (handleWithdrawSubmit props submitted memo env db).1)
  /\ (forall uid st env,
        kept_nonnegative st ->
        (balances_nonnegative (DashboardForms.submitDeposit uid st env db).1
         /\ kept_nonnegative (DashboardForms.submitDeposit uid st env db).2.1)
        /\ (balances_nonnegative (DashboardForms.submitWithdraw uid st env db).1
            /\ kept_nonnegative (DashboardForms.submitWithdraw uid st env db).2.1))
  /\ (forall uid fault st,
        kept_nonnegative st ->
        kept_nonnegative (Dashboard.fetchProfile uid fault st db))
  /\ (forall uid st fault,
        balances_nonnegative (ProfilePage.handleSaveProfile uid st fault db).1).
Proof.
  intros Hdb. split; [|split; [|split]].
  - intros props submitted memo env.
    unfold handleDepositSubmit, handleWithdrawSubmit.
    destruct (Z.leb_spec submitted 0); [split; exact Hdb|].
    split.
    + apply handleTransaction_keeps_nonnegative; [exact Hdb|lia].
    + destruct (submitted >? currentBalance props); [exact Hdb|].
      apply handleTransaction_keeps_nonnegative; [exact Hdb|discriminate].
  - intros uid st env Hst. split.
    + unfold DashboardForms.submitDeposit, DashboardForms.deposit_input,
        DashboardForms.validity.
      destruct (Dashboard.profile st) as [kept|] eqn:Hk; [|split; assumption].
      destruct (Dashboard.depositAmount st) as [a|] eqn:Ha; [|split; assumption].
      destruct (Z.ltb_spec a 1); [split; assumption|].
      pose proof (Hst kept Hk) as Hkept.
      rewrite (handleDeposit_eq _ _ _ _ _ _ Hk Ha).
      destruct (update_fault env); cbn [fst snd]; [split; assumption|].
      assert (H1 : balances_nonnegative (with_balance uid (balance kept + a) db)).
      { apply balances_nonnegative_with_balance; [lia|exact Hdb]. }
      destruct (insert_fault env); cbn [fst snd]; [split; assumption|].
      split; [apply with_record_keeps_nonnegative, H1|].
      intros kept' [= <-]. cbn. lia.
    + unfold DashboardForms.submitWithdraw, DashboardForms.withdraw_input,
        DashboardForms.validity.
      destruct (Dashboard.profile st) as [kept|] eqn:Hk; [|split; assumption].
      destruct (Dashboard.withdrawAmount st) as [a|] eqn:Ha; [|split; assumption].
      destruct (Z.ltb_spec a 1); [split; assumption|].
      cbn [option_map].
      destruct (Z.ltb_spec (balance kept) a); [split; assumption|].
      rewrite (handleWithdraw_eq _ _ _ _ _ _ Hk Ha).
      destruct (a >? balance kept); cbn [fst snd]; [split; assumption|].
      destruct (update_fault env); cbn [fst snd]; [split; assumption|].
      assert (H1 : balances_nonnegative (with_balance uid (balance kept - a) db)).
      { apply balances_nonnegative_with_balance; [lia|exact Hdb]. }
      destruct (insert_fault env); cbn [fst snd]; [split; assumption|].
      split; [apply with_record_keeps_nonnegative, H1|].
      intros kept' [= <-]. cbn. lia.
  - intros uid fault st Hst. unfold Dashboard.fetchProfile, select_profile.
    destruct fault; [exact Hst|].
    destruct (profiles db !! uid) as [p|] eqn:Hp; [|exact Hst].
    intros kept [= <-]. apply (Hdb uid p Hp).
  - intros uid st fault. unfold ProfilePage.handleSaveProfile, update_details.
    destruct (ProfilePage.profile st) as [kept|]; [|exact Hdb].
    destruct fault; [exact Hdb|].
    destruct (profiles db !! uid) as [row|] eqn:Hrow; [|exact Hdb].
    destruct (account_type_check _); [|exact Hdb].
    cbn [fst]. unfold balances_nonnegative. cbn [profiles].
    apply map_Forall_insert_2; [apply (Hdb uid row Hrow)|exact Hdb].
Qed.

(** 1000.00 in the account and on the page: a withdrawal of the whole
    balance through the Dashboard page leaves 0.00. *)
Lemma stored_balances_stay_nonnegative_witness :
  balances_nonnegative bank
  /\ stored_balance "u1"
       (DashboardForms.submitWithdraw "u1" (dashboard_page asha (Some 100000))
          no_faults bank).1 = Some 0
  /\ balances_nonnegative
       (DashboardForms.submitWithdraw "u1" (dashboard_page asha (Some 100000))
          no_faults bank).1.
Proof.
  assert (Hbank : balances_nonnegative bank).
  { intros uid p. unfold bank. cbn [profiles].
    rewrite lookup_singleton_Some. intros [_ <-]. cbn. lia. }
  split; [exact Hbank|]. split; [reflexivity|].
  apply (proj1 (proj2 (stored_balances_stay_nonnegative bank Hbank))).
  intros kept [= <-]. cbn. lia.
Defined.

End NeverNegative.
